(** * gerry.data.us_census: census survey tables joined with TIGER shapefiles

    A shallow embedding of [src/gerry/data/us_census.py] and the properties
    of its cache, its join key and its join.

    The module talks to four outside parties: the filesystem, the Census
    web server (through [requests]), the survey API client ([census]) and
    the table libraries ([pandas], [geopandas]).  The filesystem is modelled
    concretely (files and directories keyed by path); the network, the
    survey API, the shapefile parser, the exception the unpickler raises
    on bytes that are no pickle, and the Unicode case tables are oracles
    the development is parametric in; tables are lists of rows, each row a
    finite map from column names to cells. *)

From Stdlib Require Import Ascii String ZArith Lia.
From stdpp Require Import base option list strings pretty gmap.

Open Scope string_scope.
Open Scope Z_scope.

(** ** Python strings *)

Module Str.

(** Text is held as its UTF-8 code units, one [ascii] each: a character
    of the ASCII range is one unit below 128, any other character is a
    run of units from 128 on. *)

(** [s.isascii()] *)
Definition isascii_unit (c : ascii) : bool := (N_of_ascii c <? 128)%N.

Fixpoint isascii (s : string) : bool :=
  match s with
  | EmptyString => true
  | String c s' => isascii_unit c && isascii s'
  end.

(** What [str.lower] and [str.upper] do to ASCII text: the 26 letters
    are folded, every other character is kept.  (On other text Python
    goes by the Unicode case tables; see [str_lower] and [str_upper].) *)
Definition lower_ascii (c : ascii) : ascii :=
  let n := N_of_ascii c in
  if ((65 <=? n) && (n <=? 90))%N then ascii_of_N (n + 32) else c.

Definition upper_ascii (c : ascii) : ascii :=
  let n := N_of_ascii c in
  if ((97 <=? n) && (n <=? 122))%N then ascii_of_N (n - 32) else c.

Fixpoint ascii_lower (s : string) : string :=
  match s with
  | EmptyString => EmptyString
  | String c s' => String (lower_ascii c) (ascii_lower s')
  end.

Fixpoint ascii_upper (s : string) : string :=
  match s with
  | EmptyString => EmptyString
  | String c s' => String (upper_ascii c) (ascii_upper s')
  end.

Definition is_upper_ascii (c : ascii) : bool :=
  let n := N_of_ascii c in ((65 <=? n) && (n <=? 90))%N.

Definition is_digit_ascii (c : ascii) : bool :=
  let n := N_of_ascii c in ((48 <=? n) && (n <=? 57))%N.

Fixpoint forallb (p : ascii → bool) (s : string) : bool :=
  match s with
  | EmptyString => true
  | String c s' => p c && forallb p s'
  end.

(** [s.startswith('/')] and [s.endswith('/')] *)
Definition startswith_sep (s : string) : bool :=
  match s with
  | String c _ => bool_decide (c = "/"%char)
  | EmptyString => false
  end.

Fixpoint endswith_sep (s : string) : bool :=
  match s with
  | EmptyString => false
  | String c EmptyString => bool_decide (c = "/"%char)
  | String _ s' => endswith_sep s'
  end.

(** [s == '/' * len(s)] *)
Definition all_sep (s : string) : bool :=
  forallb (λ c, bool_decide (c = "/"%char)) s.

End Str.

(** ** [os.path] (posixpath) *)

Module os_path.

(** [posixpath.join(a, b)]: an absolute [b] discards [a]; a separator is
    added unless [a] is empty or already ends with one. *)
Definition join (a b : string) : string :=
  if Str.startswith_sep b then b
  else if bool_decide (a = "") || Str.endswith_sep a then a +:+ b
  else a +:+ "/" +:+ b.

(** [join(a, b, c)] runs the same loop over [b] and then [c]. *)
Definition join3 (a b c : string) : string := join (join a b) c.

(** [p[:p.rfind('/') + 1]]: the part of [p] up to and including its last
    separator; empty when [p] has none. *)
Fixpoint head_part (p : string) : string :=
  match p with
  | EmptyString => EmptyString
  | String c p' =>
      match head_part p' with
      | EmptyString => if bool_decide (c = "/"%char) then String c EmptyString else EmptyString
      | h => String c h
      end
  end.

(** [s.rstrip('/')] *)
Fixpoint rstrip_sep (s : string) : string :=
  match s with
  | EmptyString => EmptyString
  | String c s' =>
      match rstrip_sep s' with
      | EmptyString => if bool_decide (c = "/"%char) then EmptyString else String c EmptyString
      | r => String c r
      end
  end.

(** [posixpath.dirname] *)
Definition dirname (p : string) : string :=
  let head := head_part p in
  if Str.all_sep head then head else rstrip_sep head.

End os_path.

(** ** States ([us.states.State]) and state arguments *)

(** The two attributes of a [us.states.State] the module reads. *)
Record State := mkState { fips : string; abbr : string }.

Global Instance State_eq_dec : EqDecision State.
Proof. solve_decision. Defined.

(** What callers pass as [state]: text, a [State] object, or anything else
    Python lets through the type hints. *)
Inductive PyVal :=
| PyStr (s : string)
| PyState (st : State)
| PyInt (z : Z)
| PyNone.

(** Python exceptions the module raises or lets through. *)
Inductive Exn :=
| ValueError          (* raised by [_parse_state] *)
| KeyError            (* a missing column *)
| AttributeError      (* a missing column read as an attribute *)
| OSError             (* a failed [open] / [makedirs] / [to_pickle] *)
| RequestException    (* [requests.get] failed *)
| DriverError         (* [geopandas.read_file] could not parse *)
| UnpicklingError     (* [pandas.read_pickle] could not deserialize *)
| EOFError            (* [pandas.read_pickle] ran out of input *)
| CensusException     (* the survey API call failed *)
| RecursionError.     (* Python's recursion limit was hit *)

Global Instance Exn_eq_dec : EqDecision Exn.
Proof. solve_decision. Defined.

Inductive Result (A : Type) :=
| Ok (a : A)
| Err (e : Exn).
Arguments Ok {A} a.
Arguments Err {A} e.

Definition is_Ok {A} (r : Result A) : bool :=
  match r with Ok _ => true | Err _ => false end.

Global Instance Result_ret : MRet Result := λ A a, Ok a.
Global Instance Result_bind : MBind Result := λ A B f r,
  match r with Ok a => f a | Err e => Err e end.

(** ** Tables ([pandas.DataFrame], [geopandas.GeoDataFrame])

    A table is its set of column names and its rows in order; a row maps
    column names to cells.  Cells are text (codes such as ["19"] and
    ["001"], and every other value, a geometry included, spelled out); a
    column listed in [columns] but missing from a row is a NaN cell. *)

Abbreviation Row := (gmap string string).

Record DataFrame := mkFrame { columns : gset string; rows : list Row }.

(** A column taken out of a table: one cell per row, [None] for NaN. *)
Abbreviation Series := (list (option string)).

Module pandas.

(** [pandas.DataFrame(records)] on the list of dicts the survey API
    returns: the columns are the keys that occur. *)
Definition of_records (records : list Row) : DataFrame :=
  {| columns := ⋃ (dom <$> records); rows := records |}.

(** [df[c]]: [KeyError] when there is no such column. *)
Definition getitem (df : DataFrame) (c : string) : Result Series :=
  if bool_decide (c ∈ columns df) then Ok ((λ r : Row, r !! c) <$> rows df)
  else Err KeyError.

(** [gdf.c]: the same column read as an attribute. *)
Definition getattr (df : DataFrame) (c : string) : Result Series :=
  if bool_decide (c ∈ columns df) then Ok ((λ r : Row, r !! c) <$> rows df)
  else Err AttributeError.

(** [s1 + s2] on text columns: cell-wise concatenation, NaN if either
    cell is NaN. *)
Definition add_cell (a b : option string) : option string :=
  match a, b with
  | Some x, Some y => Some (x +:+ y)
  | _, _ => None
  end.

Definition add (s1 s2 : Series) : Series := zip_with add_cell s1 s2.

(** [s == v]: the boolean mask. *)
Definition eq_mask (s : Series) (v : string) : list bool :=
  (λ c, bool_decide (c = Some v)) <$> s.

Definition set_cell (c : string) (r : Row) (v : option string) : Row :=
  match v with
  | Some x => <[c := x]> r
  | None => delete c r
  end.

(** [df[c] = s]: the column is added, or replaced when it is there
    already; [ValueError] when the lengths differ. *)
Definition setitem (df : DataFrame) (c : string) (s : Series) : Result DataFrame :=
  if bool_decide (length s = length (rows df))
  then Ok {| columns := {[c]} ∪ columns df; rows := zip_with (set_cell c) (rows df) s |}
  else Err ValueError.

(** [df.loc[mask, :]]: the rows whose mask bit is set, all columns. *)
Fixpoint select (mask : list bool) (rs : list Row) : list Row :=
  match mask, rs with
  | b :: mask', r :: rs' => if b then r :: select mask' rs' else select mask' rs'
  | _, _ => []
  end.

Definition loc (df : DataFrame) (mask : list bool) : DataFrame :=
  {| columns := columns df; rows := select mask (rows df) |}.

(** [left.merge(right, on=key)] with the default [how='inner']: every
    pair of a left row and a right row that agree on the key, in the
    order of the left rows (and of the right rows within one left row);
    [KeyError] when either side lacks the key column.  A merged row is
    kept as the pair of its two sides, which carries every column of both
    without committing to pandas' renaming of clashing column names. *)
Definition matches (key : string) (l : Row) (right : list Row) : list Row :=
  filter (λ r : Row, r !! key = l !! key) right.

Definition merge (left right : DataFrame) (on : string) : Result (list (Row * Row)) :=
  if bool_decide (on ∈ columns left) && bool_decide (on ∈ columns right)
  then Ok (l ← rows left; (λ r, (l, r)) <$> matches on l (rows right))
  else Err KeyError.

End pandas.

(** The key of a merged row: the [GEOID] cell, which its two sides share. *)
Definition key_of (r : Row) : option string := r !! "GEOID".
Definition keys (rs : list Row) : list (option string) := key_of <$> rs.

(** [_merge_dataframe_shapefile(df, gdf)], line 68. *)
Definition _merge_dataframe_shapefile (df gdf : DataFrame) : Result (list (Row * Row)) :=
  pandas.merge gdf df "GEOID".

(** ** The outside world *)

(** What a file holds: a pickled table (the pickle of a table is modelled
    as the table), or bytes that are no pickle of a table, such as those
    of a download. *)
Inductive Content :=
| Bytes (b : string)
| Pickle (df : DataFrame).

(** The filesystem: regular files with their content, and directories.
    Paths are identified by their spelling; the module spells a path the
    same way every time it builds it. *)
Record FS := mkFS { files : gmap string Content; dirs : gset string }.

Module os.

(** The root always exists. *)
Definition isroot (p : string) : bool :=
  Str.all_sep p && negb (bool_decide (p = "")).

Definition isdir (fs : FS) (p : string) : bool :=
  bool_decide (p ∈ dirs fs) || isroot p.

(** [os.path.exists] *)
Definition path_exists (fs : FS) (p : string) : bool :=
  bool_decide (p ∈ dom (files fs)) || isdir fs p.

(** The directory a new entry [p] goes into must be there; a relative
    name without directory part goes into the working directory. *)
Definition parent_ok (fs : FS) (p : string) : bool :=
  let d := os_path.dirname p in bool_decide (d = "") || isdir fs d.

(** [os.mkdir] *)
Definition mkdir (name : string) (fs : FS) : option FS :=
  if bool_decide (name = "") || path_exists fs name || negb (parent_ok fs name)
  then None
  else Some {| files := files fs; dirs := {[name]} ∪ dirs fs |}.

(** [os.makedirs]: the missing ancestors first, then the leaf.  The
    directory part of a path is strictly shorter than the path, so the
    length of the name bounds the recursion. *)
Fixpoint makedirs_rec (n : nat) (name : string) (fs : FS) : option FS :=
  let head := os_path.dirname name in
  match n with
  | O => mkdir name fs
  | S n' =>
      if negb (bool_decide (head = "")) && negb (path_exists fs head)
      then fs' ← makedirs_rec n' head fs; mkdir name fs'
      else mkdir name fs
  end.

Definition makedirs (name : string) (fs : FS) : option FS :=
  makedirs_rec (String.length name) name fs.

(** [open(p, 'wb')] followed by [write] and close: creates or truncates
    the file; fails when the directory is missing or [p] is a directory. *)
Definition write_file (p : string) (c : Content) (fs : FS) : option FS :=
  if bool_decide (p = "") || isdir fs p || negb (parent_ok fs p)
  then None
  else Some {| files := <[p := c]> (files fs); dirs := dirs fs |}.

End os.

(** The calls that leave the process, in the order they were made (the
    latest first). *)
Inductive Event :=
| HttpGet (url : string)
| Makedirs (d : string)
| WriteFile (p : string)
| ReadShapefile (p : string)
| ReadPickle (p : string)
| ToPickle (p : string)
| SurveyQuery (dataset level fips : string).

Global Instance Event_eq_dec : EqDecision Event.
Proof. solve_decision. Defined.

Record World := mkWorld { fs : FS; trace : list Event }.

Definition emit (e : Event) (w : World) : World :=
  {| fs := fs w; trace := e :: trace w |}.

Definition set_fs (f : FS) (w : World) : World :=
  {| fs := f; trace := trace w |}.

(** Keyword arguments forwarded to [us.states.lookup]. *)
Abbreviation Kwargs := (list (string * string)).

(** What the development is parametric in. *)
Record Env := mkEnv {
  (** [os.path.dirname(__file__)] *)
  module_dir : string;
  (** [us.states.lookup(text, **kwargs)]: [None] when the text names no state *)
  lookup : string → Kwargs → option State;
  (** [requests.get(url).content]: [None] when the request raises *)
  http_get : string → option string;
  (** the shapefile parser behind [geopandas.read_file]: [None] when the
      bytes are no shapefile archive *)
  parse_shapefile : string → option DataFrame;
  (** the unpickler behind [pandas.read_pickle], on bytes that are no
      pickle of a table: the exception it raises ([EOFError] on an empty
      or truncated file, [UnpicklingError] on most others) *)
  unpickle_error : string → Exn;
  (** [str.lower] and [str.upper] on text that is not ASCII: the Unicode
      case tables of the interpreter *)
  unicode_lower : string → string;
  unicode_upper : string → string
}.

(** The survey client ([census.core.Client]): its dataset name and the
    three queries the module issues; [None] when the call raises. *)
Abbreviation Fields := (list string).

Module census.

Record Client := mkClient {
  dataset : string;
  state_county : Fields → string → option (list Row);
  state_county_tract : Fields → string → option (list Row);
  state_county_blockgroup : Fields → string → option (list Row)
}.

End census.

(** ** Computations: a world passed along, a result or an exception *)

Definition M (A : Type) : Type := World → Result A * World.

Global Instance M_ret : MRet M := λ A a w, (Ok a, w).
Global Instance M_bind : MBind M := λ A B f m w,
  match m w with
  | (Ok a, w') => f a w'
  | (Err e, w') => (Err e, w')
  end.

(** A pure step that may raise. *)
Definition lift {A} (r : Result A) : M A := λ w, (r, w).

Section Effects.

Variable env : Env.

(** [_parse_state(state, **kwargs)], lines 99-107. *)
Definition _parse_state (state : PyVal) (kwargs : Kwargs) : Result State :=
  match state with
  | PyStr s =>
      match lookup env s kwargs with
      | None => Err ValueError
      | Some st => Ok st
      end
  | PyState st => Ok st
  | _ => Err ValueError
  end.

(** [s.lower()] and [s.upper()]: the letters folded on ASCII text, the
    Unicode case tables on any other. *)
Definition str_lower (s : string) : string :=
  if Str.isascii s then Str.ascii_lower s else unicode_lower env s.

Definition str_upper (s : string) : string :=
  if Str.isascii s then Str.ascii_upper s else unicode_upper env s.

(** [requests.get(url)], then [.content] *)
Definition requests_get (url : string) : M string := λ w,
  match http_get env url with
  | Some body => (Ok body, emit (HttpGet url) w)
  | None => (Err RequestException, emit (HttpGet url) w)
  end.

(** [os.path.exists(p)] *)
Definition os_path_exists (p : string) : M bool := λ w,
  (Ok (os.path_exists (fs w) p), w).

(** [os.makedirs(d)] *)
Definition os_makedirs (d : string) : M () := λ w,
  match os.makedirs d (fs w) with
  | Some f => (Ok (), emit (Makedirs d) (set_fs f w))
  | None => (Err OSError, emit (Makedirs d) w)
  end.

(** [with open(p, 'wb') as f: f.write(body)] *)
Definition write_bytes (p : string) (body : string) : M () := λ w,
  match os.write_file p (Bytes body) (fs w) with
  | Some f => (Ok (), emit (WriteFile p) (set_fs f w))
  | None => (Err OSError, emit (WriteFile p) w)
  end.

(** [geopandas.read_file(p)] *)
Definition geopandas_read_file (p : string) : M DataFrame := λ w,
  match files (fs w) !! p with
  | Some (Bytes b) =>
      match parse_shapefile env b with
      | Some gdf => (Ok gdf, emit (ReadShapefile p) w)
      | None => (Err DriverError, emit (ReadShapefile p) w)
      end
  | _ => (Err DriverError, emit (ReadShapefile p) w)
  end.

(** [pandas.read_pickle(p)]: a pickled table is given back; without a
    regular file at [p] the [open] fails; on other bytes the unpickler
    raises.  Unpickling is taken to give a table or to raise: the pickle
    of another kind of object, which the code would hand on as it is, is
    not covered. *)
Definition pandas_read_pickle (p : string) : M DataFrame := λ w,
  match files (fs w) !! p with
  | Some (Pickle df) => (Ok df, emit (ReadPickle p) w)
  | Some (Bytes b) => (Err (unpickle_error env b), emit (ReadPickle p) w)
  | None => (Err OSError, emit (ReadPickle p) w)
  end.

(** [df.to_pickle(p)] *)
Definition to_pickle (df : DataFrame) (p : string) : M () := λ w,
  match os.write_file p (Pickle df) (fs w) with
  | Some f => (Ok (), emit (ToPickle p) (set_fs f w))
  | None => (Err OSError, emit (ToPickle p) w)
  end.

(** A survey API call: [query] is the client method with its arguments. *)
Definition survey_query (survey : census.Client) (level fips : string)
    (query : option (list Row)) : M (list Row) := λ w,
  match query with
  | Some records => (Ok records, emit (SurveyQuery (census.dataset survey) level fips) w)
  | None => (Err CensusException, emit (SurveyQuery (census.dataset survey) level fips) w)
  end.

End Effects.

(** Python's default recursion limit. *)
Definition recursion_limit : nat := 1000.

(** ** class TigerShapefile *)

Module TigerShapefile.

Record t := mk {
  state : State;
  geounit : string;
  year : Z;
  us_only : list string
}.

(** The default of the [us_only] argument. *)
Definition default_us_only : list string := ["county"].

Section Methods.

Variable env : Env.

(** [__init__], lines 178-181. *)
Definition __init__ (state : PyVal) (geounit : string) (year : Z)
    (us_only : list string) : Result t :=
  st ← _parse_state env state [];
  Ok {| state := st; geounit := str_lower env geounit; year := year;
        us_only := us_only |}.

(** [dir], lines 206-210. *)
Definition dir (self : t) : string :=
  let path := os_path.join (module_dir env) "files" in
  if negb (bool_decide (geounit self ∈ us_only self))
  then os_path.join path (abbr (state self))
  else path.

(** [filename], lines 213-217. *)
Definition filename (self : t) : string :=
  if bool_decide (geounit self ∈ us_only self)
  then "tl_" +:+ pretty (year self) +:+ "_us_" +:+ str_lower env (geounit self) +:+ ".zip"
  else "tl_" +:+ pretty (year self) +:+ "_" +:+ fips (state self) +:+ "_"
         +:+ str_lower env (geounit self) +:+ ".zip".

(** [filepath], line 221. *)
Definition filepath (self : t) : string :=
  os_path.join (dir self) (filename self).

(** [url], line 225. *)
Definition url (self : t) : string :=
  "https://www2.census.gov/geo/tiger/TIGER" +:+ pretty (year self) +:+ "/"
    +:+ str_upper env (geounit self) +:+ "/" +:+ filename self.

(** [download], lines 187-191. *)
Definition download (self : t) : M () :=
  r ← requests_get env (url self);
  ex ← os_path_exists (dir self);
  (if negb ex then os_makedirs (dir self) else mret ());;
  write_bytes (filepath self) r.

(** [load], lines 199-203.  The method calls itself after a download;
    [depth] is the number of frames Python still allows. *)
Fixpoint load_rec (depth : nat) (self : t) : M DataFrame :=
  match depth with
  | O => lift (Err RecursionError)
  | S depth' =>
      ex ← os_path_exists (filepath self);
      if ex : bool then geopandas_read_file env (filepath self)
      else download self;; load_rec depth' self
  end.

Definition load (self : t) : M DataFrame := load_rec recursion_limit self.

End Methods.

End TigerShapefile.

(** ** class SurveyData *)

Module SurveyData.

Record t := mk {
  state : State;
  dataset : string;
  geounit : string
}.

Section Methods.

Variable env : Env.

(** [__init__], lines 284-286. *)
Definition __init__ (survey : census.Client) (state : PyVal) (geounit : string) : Result t :=
  st ← _parse_state env state [];
  Ok {| state := st; dataset := census.dataset survey; geounit := geounit |}.

(** [dir], line 290. *)
Definition dir (self : t) : string :=
  os_path.join3 (module_dir env) "files" (abbr (state self)).

(** [filename], line 294. *)
Definition filename (self : t) : string :=
  abbr (state self) +:+ "_" +:+ dataset self +:+ "_" +:+ geounit self +:+ ".pkl".

(** [filepath], line 298. *)
Definition filepath (self : t) : string :=
  os_path.join (dir self) (filename self).

(** [check_exists], line 304. *)
Definition check_exists (self : t) : M bool :=
  ex ← os_path_exists (filepath self);
  mret (if ex : bool then true else false).

(** [load], line 310. *)
Definition load (self : t) : M DataFrame :=
  pandas_read_pickle env (filepath self).

(** [save], line 316. *)
Definition save (self : t) (df : DataFrame) : M () :=
  to_pickle df (filepath self).

End Methods.

End SurveyData.

(** ** The three entry points *)

Section EntryPoints.

Variable env : Env.

(** [get_block_groups], lines 374-389. *)
Definition get_block_groups (survey : census.Client) (state : PyVal)
    (fields : Fields) (year : Z) (redownload save : bool) : M (list (Row * Row)) :=
  ts ← lift (TigerShapefile.__init__ env state "bg" year TigerShapefile.default_us_only);
  gdf ← TigerShapefile.load env ts;
  sd ← lift (SurveyData.__init__ env survey state "bg");
  ex ← SurveyData.check_exists env sd;
  df ← (if ex && negb redownload then SurveyData.load env sd
        else
          st ← lift (_parse_state env state []);
          records ← survey_query survey "block group" (fips st)
                      (census.state_county_blockgroup survey fields (fips st));
          let df := pandas.of_records records in
          (if save then SurveyData.save env sd df else mret ());;
          mret df);
  geoid ← lift (a ← pandas.getitem df "state";
                b ← pandas.getitem df "county";
                c ← pandas.getitem df "tract";
                d ← pandas.getitem df "block group";
                Ok (pandas.add (pandas.add (pandas.add a b) c) d));
  df ← lift (pandas.setitem df "GEOID" geoid);
  lift (_merge_dataframe_shapefile df gdf).

(** [get_counties], lines 448-464. *)
Definition get_counties (survey : census.Client) (state : PyVal)
    (fields : Fields) (year : Z) (redownload save : bool) : M (list (Row * Row)) :=
  state ← lift (_parse_state env state []);
  ts ← lift (TigerShapefile.__init__ env (PyState state) "county" year
               TigerShapefile.default_us_only);
  gdf ← TigerShapefile.load env ts;
  statefp ← lift (pandas.getattr gdf "STATEFP");
  let gdf := pandas.loc gdf (pandas.eq_mask statefp (fips state)) in
  sd ← lift (SurveyData.__init__ env survey (PyState state) "county");
  ex ← SurveyData.check_exists env sd;
  df ← (if ex && negb redownload then SurveyData.load env sd
        else
          records ← survey_query survey "county" (fips state)
                      (census.state_county survey fields (fips state));
          let df := pandas.of_records records in
          (if save then SurveyData.save env sd df else mret ());;
          mret df);
  geoid ← lift (a ← pandas.getitem df "state";
                b ← pandas.getitem df "county";
                Ok (pandas.add a b));
  df ← lift (pandas.setitem df "GEOID" geoid);
  lift (_merge_dataframe_shapefile df gdf).

(** [get_tracts], lines 522-537. *)
Definition get_tracts (survey : census.Client) (state : PyVal)
    (fields : Fields) (year : Z) (redownload save : bool) : M (list (Row * Row)) :=
  ts ← lift (TigerShapefile.__init__ env state "tract" year TigerShapefile.default_us_only);
  gdf ← TigerShapefile.load env ts;
  sd ← lift (SurveyData.__init__ env survey state "tract");
  ex ← SurveyData.check_exists env sd;
  df ← (if ex && negb redownload then SurveyData.load env sd
        else
          st ← lift (_parse_state env state []);
          records ← survey_query survey "tract" (fips st)
                      (census.state_county_tract survey fields (fips st));
          let df := pandas.of_records records in
          (if save then SurveyData.save env sd df else mret ());;
          mret df);
  geoid ← lift (a ← pandas.getitem df "state";
                b ← pandas.getitem df "county";
                c ← pandas.getitem df "tract";
                Ok (pandas.add (pandas.add a b) c));
  df ← lift (pandas.setitem df "GEOID" geoid);
  lift (_merge_dataframe_shapefile df gdf).

End EntryPoints.

(** ** One view of the three entry points

    The entry points differ in the geographic unit, the survey query and
    the key columns (and the county one filters the shapefile table); the
    definitions below name the stages they share.  [run_staged] proves the
    entry points equal to the composition of these stages. *)

Inductive EntryPoint := BlockGroups | Counties | Tracts.

Definition geounit_of (ep : EntryPoint) : string :=
  match ep with BlockGroups => "bg" | Counties => "county" | Tracts => "tract" end.

Definition level_of (ep : EntryPoint) : string :=
  match ep with BlockGroups => "block group" | Counties => "county" | Tracts => "tract" end.

(** The columns whose cells make up [GEOID], in order. *)
Definition key_columns (ep : EntryPoint) : list string :=
  match ep with
  | BlockGroups => ["state"; "county"; "tract"; "block group"]
  | Counties => ["state"; "county"]
  | Tracts => ["state"; "county"; "tract"]
  end.

Definition query_of (ep : EntryPoint) (survey : census.Client)
    : Fields → string → option (list Row) :=
  match ep with
  | BlockGroups => census.state_county_blockgroup survey
  | Counties => census.state_county survey
  | Tracts => census.state_county_tract survey
  end.

(** The concatenation of the key cells of one row (NaN if one is). *)
Definition concat_cells (cols : list string) (r : Row) : option string :=
  match cols with
  | [] => None
  | c :: cols' => foldl (λ acc c', pandas.add_cell acc (r !! c')) (r !! c) cols'
  end.

(** The [GEOID] column as the entry point computes it. *)
Definition geoid_series (ep : EntryPoint) (df : DataFrame) : Result Series :=
  match ep with
  | BlockGroups =>
      a ← pandas.getitem df "state"; b ← pandas.getitem df "county";
      c ← pandas.getitem df "tract"; d ← pandas.getitem df "block group";
      Ok (pandas.add (pandas.add (pandas.add a b) c) d)
  | Counties =>
      a ← pandas.getitem df "state"; b ← pandas.getitem df "county";
      Ok (pandas.add a b)
  | Tracts =>
      a ← pandas.getitem df "state"; b ← pandas.getitem df "county";
      c ← pandas.getitem df "tract";
      Ok (pandas.add (pandas.add a b) c)
  end.

(** [df['GEOID'] = ...]: the survey table as it enters the join. *)
Definition build_geoid (ep : EntryPoint) (df : DataFrame) : Result DataFrame :=
  geoid ← geoid_series ep df; pandas.setitem df "GEOID" geoid.

(** The shapefile object an entry point builds for a resolved state. *)
Definition shapefile_of (ep : EntryPoint) (st : State) (year : Z) : TigerShapefile.t :=
  {| TigerShapefile.state := st; TigerShapefile.geounit := geounit_of ep;
     TigerShapefile.year := year;
     TigerShapefile.us_only := TigerShapefile.default_us_only |}.

(** The survey cache entry an entry point builds. *)
Definition cache_of (ep : EntryPoint) (survey : census.Client) (st : State) : SurveyData.t :=
  {| SurveyData.state := st; SurveyData.dataset := census.dataset survey;
     SurveyData.geounit := geounit_of ep |}.

(** [gdf.loc[gdf.STATEFP == fips, :]], line 450. *)
Definition keep_state (gdf : DataFrame) (code : string) : Result DataFrame :=
  statefp ← pandas.getattr gdf "STATEFP";
  Ok (pandas.loc gdf (pandas.eq_mask statefp code)).

Section Stages.

Variable env : Env.

Definition run (ep : EntryPoint) :=
  match ep with
  | BlockGroups => get_block_groups env
  | Counties => get_counties env
  | Tracts => get_tracts env
  end.

(** The shapefile table entering the join. *)
Definition shapefile_table (ep : EntryPoint) (st : State) (year : Z) : M DataFrame :=
  gdf ← TigerShapefile.load env (shapefile_of ep st year);
  match ep with
  | Counties => lift (keep_state gdf (fips st))
  | _ => mret gdf
  end.

(** The survey table before its key is built: from the cache, or fresh. *)
Definition survey_table (ep : EntryPoint) (survey : census.Client) (st : State)
    (fields : Fields) (redownload save : bool) : M DataFrame :=
  let sd := cache_of ep survey st in
  ex ← SurveyData.check_exists env sd;
  if ex && negb redownload then SurveyData.load env sd
  else
    records ← survey_query survey (level_of ep) (fips st)
                (query_of ep survey fields (fips st));
    let df := pandas.of_records records in
    (if save then SurveyData.save env sd df else mret ());;
    mret df.

Definition staged (ep : EntryPoint) (survey : census.Client) (state : PyVal)
    (fields : Fields) (year : Z) (redownload save : bool) : M (list (Row * Row)) :=
  st ← lift (_parse_state env state []);
  gdf ← shapefile_table ep st year;
  df ← survey_table ep survey st fields redownload save;
  df' ← lift (build_geoid ep df);
  lift (_merge_dataframe_shapefile df' gdf).

End Stages.

(** The number of HTTP requests, and of shapefile parses, in a trace. *)
Definition is_HttpGet (e : Event) : bool :=
  match e with HttpGet _ => true | _ => false end.
Definition is_ReadShapefile (e : Event) : bool :=
  match e with ReadShapefile _ => true | _ => false end.
Definition downloads (tr : list Event) : nat := length (filter is_HttpGet tr).
Definition parses (tr : list Event) : nat := length (filter is_ReadShapefile tr).

(** Canonical state records: a two-letter postal code and a two-digit
    FIPS code, as every entry of the [us] package's table has. *)
Definition canonical (st : State) : bool :=
  bool_decide (String.length (abbr st) = 2%nat) && Str.forallb Str.is_upper_ascii (abbr st)
  && bool_decide (String.length (fips st) = 2%nat) && Str.forallb Str.is_digit_ascii (fips st).

(** Whether the table has all of the given columns. *)
Definition has_columns (cols : list string) (df : DataFrame) : bool :=
  forallb (λ c, bool_decide (c ∈ columns df)) cols.

(** The tables an entry point hands to the join, in a run from [w]: the
    survey table with its key built, and the shapefile table. *)
Definition enters_join (env : Env) (ep : EntryPoint) (survey : census.Client)
    (state : PyVal) (fields : Fields) (year : Z) (redownload save : bool)
    (w : World) (df' gdf : DataFrame) (w' : World) : Prop :=
  ∃ st w1 df,
    _parse_state env state [] = Ok st ∧
    shapefile_table env ep st year w = (Ok gdf, w1) ∧
    survey_table env ep survey st fields redownload save w1 = (Ok df, w') ∧
    build_geoid ep df = Ok df'.


(** Whether a character occurs in a text. *)
Fixpoint contains (c : ascii) (s : string) : bool :=
  match s with
  | EmptyString => false
  | String x s' => bool_decide (x = c) || contains c s'
  end.

(** A filesystem [f'] that has, beyond [f], at most the file [q] and
    directories of names no longer than [n]. *)
Definition grows_by (q : string) (n : nat) (f f' : FS) : Prop :=
  (∀ x, x ∈ dom (files f') → x ∈ dom (files f) ∨ x = q) ∧
  (∀ d, d ∈ dirs f' → d ∈ dirs f ∨ (String.length d ≤ n)%nat).

(** ** Sequences of calls into the module *)

(** The calls a client can make: the methods of the two classes that touch
    the filesystem, and the three entry points. *)
Inductive Op :=
| OpDownload (t : TigerShapefile.t)
| OpShapefileLoad (t : TigerShapefile.t)
| OpCheckExists (sd : SurveyData.t)
| OpSurveyLoad (sd : SurveyData.t)
| OpSave (sd : SurveyData.t) (df : DataFrame)
| OpEntry (ep : EntryPoint) (survey : census.Client) (state : PyVal)
    (fields : Fields) (year : Z) (redownload save : bool).

(** The world after a call, whatever the call returned. *)
Definition exec (env : Env) (o : Op) (w : World) : World :=
  match o with
  | OpDownload t => (TigerShapefile.download env t w).2
  | OpShapefileLoad t => (TigerShapefile.load env t w).2
  | OpCheckExists sd => (SurveyData.check_exists env sd w).2
  | OpSurveyLoad sd => (SurveyData.load env sd w).2
  | OpSave sd df => (SurveyData.save env sd df w).2
  | OpEntry ep survey state fields year redownload save =>
      (run env ep survey state fields year redownload save w).2
  end.

Definition exec_all (env : Env) (ops : list Op) (w : World) : World :=
  foldl (λ w o, exec env o w) w ops.

(** Whether a call can save a survey table to the path [p]: a [save] on a
    cache entry of that path, or an entry point asked to save whose cache
    entry has that path. *)
Definition saves_to (env : Env) (p : string) (o : Op) : bool :=
  match o with
  | OpSave sd _ => bool_decide (SurveyData.filepath env sd = p)
  | OpEntry ep survey state _ _ _ save =>
      save &&
      match _parse_state env state [] with
      | Ok st => bool_decide (SurveyData.filepath env (cache_of ep survey st) = p)
      | Err _ => false
      end
  | _ => false
  end.

(** Whether the states a call works on are canonical. *)
Definition canonical_op (env : Env) (o : Op) : bool :=
  match o with
  | OpDownload t | OpShapefileLoad t => canonical (TigerShapefile.state t)
  | OpEntry _ _ state _ _ _ _ =>
      match _parse_state env state [] with
      | Ok st => canonical st
      | Err _ => true
      end
  | _ => true
  end.

(** Nothing at the path [p]: no file, no directory. *)
Definition absent (p : string) (f : FS) : Prop :=
  (p ∉ dom (files f)) ∧ (p ∉ dirs f).

(** ** A small concrete world, for examples *)

Module Example.

Definition iowa : State := {| fips := "19"; abbr := "IA" |}.
Definition kansas : State := {| fips := "20"; abbr := "KS" |}.

Definition states_lookup (text : string) (_ : Kwargs) : option State :=
  if bool_decide (text ∈ ["Iowa"; "IA"; "19"]) then Some iowa
  else if bool_decide (text ∈ ["Kansas"; "KS"; "20"]) then Some kansas
  else None.

Definition shape_row (geoid statefp : string) : Row :=
  {[ "GEOID" := geoid; "STATEFP" := statefp; "geometry" := "POLYGON" ]}.

(** The national county file: two Iowa counties and one of Kansas. *)
Definition county_shapes : DataFrame :=
  {| columns := {[ "GEOID"; "STATEFP"; "geometry" ]};
     rows := [shape_row "19001" "19"; shape_row "19003" "19"; shape_row "20001" "20"] |}.

Definition county_url : string :=
  "https://www2.census.gov/geo/tiger/TIGER2020/COUNTY/tl_2020_us_county.zip".

(** An empty file ends the unpickler at once; the other files of the
    examples are no pickles at all. *)
Definition no_pickle (b : string) : Exn :=
  if bool_decide (b = "") then EOFError else UnpicklingError.

(** The server has the 2020 county file and nothing else.  Every unit
    name of the examples is ASCII, so the case tables are never asked. *)
Definition env : Env :=
  {| module_dir := "/site/gerry/data";
     lookup := states_lookup;
     http_get := λ url, if bool_decide (url = county_url) then Some "PK-county" else None;
     parse_shapefile := λ b, if bool_decide (b = "PK-county") then Some county_shapes else None;
     unpickle_error := no_pickle;
     unicode_lower := λ s, s;
     unicode_upper := λ s, s |}.

Definition survey_row (st county pop : string) : Row :=
  {[ "state" := st; "county" := county; "P1_001N" := pop ]}.

Definition survey_rows : list Row :=
  [survey_row "19" "001" "7496"; survey_row "19" "005" "14061"].

Definition pl : census.Client :=
  {| census.dataset := "pl";
     census.state_county := λ _ code, if bool_decide (code = "19") then Some survey_rows else None;
     census.state_county_tract := λ _ _, None;
     census.state_county_blockgroup := λ _ _, None |}.

(** A fresh installation: the package directory, no [files] directory. *)
Definition fresh : World :=
  {| fs := {| files := ∅; dirs := {[ "/site"; "/site/gerry"; "/site/gerry/data" ]} |};
     trace := [] |}.

(** The objects the county entry point builds for Iowa. *)
Definition county_file : TigerShapefile.t := shapefile_of Counties iowa 2020.
Definition county_cache : SurveyData.t := cache_of Counties pl iowa.

(** The block-group file of Iowa, which the server does not have. *)
Definition bg_file : TigerShapefile.t := shapefile_of BlockGroups iowa 2020.

(** The survey table as queried, and with its key built. *)
Definition survey_frame : DataFrame := pandas.of_records survey_rows.
Definition keyed_survey : DataFrame :=
  {| columns := {["GEOID"]} ∪ columns survey_frame;
     rows := [ <["GEOID" := "19001"]> (survey_row "19" "001" "7496");
               <["GEOID" := "19005"]> (survey_row "19" "005" "14061") ] |}.

(** The Iowa rows of the county file. *)
Definition iowa_shapes : DataFrame :=
  {| columns := columns county_shapes;
     rows := [shape_row "19001" "19"; shape_row "19003" "19"] |}.

(** The one row the two tables share. *)
Definition joined : list (Row * Row) :=
  [(shape_row "19001" "19", <["GEOID" := "19001"]> (survey_row "19" "001" "7496"))].

Definition county_path : string := "/site/gerry/data/files/tl_2020_us_county.zip".

(** The world after a shapefile load on the fresh installation. *)
Definition with_shapefile : World :=
  {| fs := {| files := {[ county_path := Bytes "PK-county" ]};
              dirs := {[ "/site/gerry/data/files" ]} ∪ dirs (fs fresh) |};
     trace := [ReadShapefile county_path; WriteFile county_path;
               Makedirs "/site/gerry/data/files"; HttpGet county_url] |}.

(** and after the county entry point has run to its end. *)
Definition after_run : World :=
  emit (SurveyQuery "pl" "county" "19") with_shapefile.

End Example.

(** Every file and every directory of [f] is still one in [f']. *)
Definition keeps (f f' : FS) : Prop :=
  dom (files f) ⊆ dom (files f') ∧ dirs f ⊆ dirs f'.

(** ** More of the concrete world *)

Module Scenario.

(** A server that also has Iowa's block-group file, answers the request
    for Iowa's tract file with an error page, and has a county file of
    2010, whose columns carry the suffix of that year. *)
Definition bg_url : string :=
  "https://www2.census.gov/geo/tiger/TIGER2020/BG/tl_2020_19_bg.zip".
Definition tract_url : string :=
  "https://www2.census.gov/geo/tiger/TIGER2020/TRACT/tl_2020_19_tract.zip".
Definition county_2010_url : string :=
  "https://www2.census.gov/geo/tiger/TIGER2010/COUNTY/tl_2010_us_county.zip".

Definition bg_shapes : DataFrame :=
  {| columns := {[ "GEOID"; "STATEFP"; "geometry" ]};
     rows := [Example.shape_row "190019601001" "19"; Example.shape_row "190019601002" "19"] |}.

Definition county_shapes_2010 : DataFrame :=
  {| columns := {[ "GEOID10"; "STATEFP10"; "geometry" ]};
     rows := [ {[ "GEOID10" := "19001"; "STATEFP10" := "19"; "geometry" := "POLYGON" ]} ] |}.

Definition env : Env :=
  {| module_dir := "/site/gerry/data";
     lookup := Example.states_lookup;
     http_get := λ url,
       if bool_decide (url = Example.county_url) then Some "PK-county"
       else if bool_decide (url = bg_url) then Some "PK-bg"
       else if bool_decide (url = tract_url) then Some "<html>404</html>"
       else if bool_decide (url = county_2010_url) then Some "PK-county-2010"
       else None;
     parse_shapefile := λ b,
       if bool_decide (b = "PK-county") then Some Example.county_shapes
       else if bool_decide (b = "PK-bg") then Some bg_shapes
       else if bool_decide (b = "PK-county-2010") then Some county_shapes_2010
       else None;
     unpickle_error := Example.no_pickle;
     unicode_lower := λ s, s;
     unicode_upper := λ s, s |}.

(** Survey rows down to the block group. *)
Definition bg_row (county tract bg pop : string) : Row :=
  {[ "state" := "19"; "county" := county; "tract" := tract; "block group" := bg;
     "P1_001N" := pop ]}.

Definition bg_rows : list Row := [bg_row "001" "960100" "1" "812"].
Definition bg_frame : DataFrame := pandas.of_records bg_rows.




Definition county_cache_path : string := "/site/gerry/data/files/IA/IA_pl_county.pkl".
Definition tract_path : string := "/site/gerry/data/files/IA/tl_2020_19_tract.zip".

(** An installation with Iowa's directory in place. *)
Definition with_state_dir : World :=
  {| fs := {| files := ∅;
              dirs := {[ "/site/gerry/data/files"; "/site/gerry/data/files/IA" ]}
                      ∪ dirs (fs Example.fresh) |};
     trace := [] |}.

(** The same after the county entry point has run with [save] set. *)
Definition after_saving_run : World :=
  Eval vm_compute in
    (get_counties Example.env Example.pl (PyStr "Iowa") ["P1_001N"] 2020 true true
       with_state_dir).2.

(** The shapefile stage done, and something that is no pickle at the
    cache path. *)
Definition with_broken_cache : World :=
  {| fs := {| files := {[ Example.county_path := Bytes "PK-county";
                          county_cache_path := Bytes "not a pickle" ]};
              dirs := dirs (fs with_state_dir) |};
     trace := [ReadShapefile Example.county_path] |}.

(** The error page stored as Iowa's tract file. *)
Definition with_error_page : World :=
  {| fs := {| files := {[ tract_path := Bytes "<html>404</html>" ]};
              dirs := dirs (fs with_state_dir) |};
     trace := [] |}.

(** The fresh installation after Iowa's block-group file has been
    downloaded. *)
Definition after_bg_download : World :=
  Eval vm_compute in
    (TigerShapefile.download env (shapefile_of BlockGroups Example.iowa 2020) Example.fresh).2.

End Scenario.

(** * Properties *)

(** ** Running computations *)

Lemma bind_Ok {A B} (m : M A) (f : A → M B) w a w' :
  m w = (Ok a, w') → (m ≫= f) w = f a w'.
Proof. intros H. unfold mbind, M_bind. by rewrite H. Qed.

Lemma bind_lift_Ok {A B} (a : A) (f : A → M B) w :
  (lift (Ok a) ≫= f) w = f a w.
Proof. done. Qed.

Lemma bind_inv_Ok {A B} (m : M A) (f : A → M B) w b w' :
  (m ≫= f) w = (Ok b, w') → ∃ a w1, m w = (Ok a, w1) ∧ f a w1 = (Ok b, w').
Proof.
  unfold mbind, M_bind. destruct (m w) as [[a|e] w1]; [eauto | discriminate].
Qed.

Lemma lift_inv_Ok {A} (r : Result A) w a w' :
  lift r w = (Ok a, w') → r = Ok a ∧ w' = w.
Proof. unfold lift. by intros [= -> ->]. Qed.

(** ** The entry points are their stages *)

Lemma init_shapefile_of env ep st year :
  TigerShapefile.__init__ env (PyState st) (geounit_of ep) year
    TigerShapefile.default_us_only = Ok (shapefile_of ep st year).
Proof. by destruct ep. Qed.

Lemma run_staged env ep survey state fields year redownload save w :
  run env ep survey state fields year redownload save w
  = staged env ep survey state fields year redownload save w.
Proof.
  unfold staged, run.
  destruct ep; unfold get_block_groups, get_counties, get_tracts.
  all: unfold TigerShapefile.__init__, SurveyData.__init__.
  all: destruct (_parse_state env state []) as [st|e] eqn:Hst; [|done].
  all: rewrite !bind_lift_Ok; cbn [mbind Result_bind _parse_state].
  all: rewrite ?bind_lift_Ok.
  all: unfold shapefile_table, survey_table, build_geoid, geoid_series, keep_state,
         shapefile_of, cache_of, geounit_of, level_of, query_of.
  all: change (str_lower env "bg") with "bg"; change (str_lower env "county") with "county";
       change (str_lower env "tract") with "tract".
  all: cbv [mbind M_bind lift mret M_ret Result_bind Result_ret].
  all: destruct (TigerShapefile.load env _ w) as [[gdf|e] w1]; [|done].
  all: repeat case_match; simplify_eq; done.
Qed.

(** ** Tables *)

Lemma merge_Ok_inv left right on m :
  pandas.merge left right on = Ok m →
  on ∈ columns left ∧ on ∈ columns right ∧
  m = (l ← rows left; (λ r, (l, r)) <$> pandas.matches on l (rows right)).
Proof.
  unfold pandas.merge. intros H.
  destruct (bool_decide (on ∈ columns left)) eqn:Hl; [|done].
  destruct (bool_decide (on ∈ columns right)) eqn:Hr; [|done].
  apply bool_decide_eq_true in Hl, Hr. by simplify_eq/=.
Qed.

Lemma merge_Ok left right on :
  on ∈ columns left → on ∈ columns right → is_Ok (pandas.merge left right on) = true.
Proof.
  intros Hl Hr. unfold pandas.merge.
  by rewrite !bool_decide_eq_true_2.
Qed.

Lemma elem_of_merge left right on m (l r : Row) :
  pandas.merge left right on = Ok m →
  (l, r) ∈ m ↔ l ∈ rows left ∧ r ∈ rows right ∧ r !! on = l !! on.
Proof.
  intros (_ & _ & ->)%merge_Ok_inv.
  rewrite list_elem_of_bind. split.
  - intros (l' & Hin & Hl'). apply list_elem_of_fmap in Hin as (r' & [= -> ->] & Hr').
    apply list_elem_of_filter in Hr' as [??]. done.
  - intros (Hl & Hr & Hk). exists l. split; [|done].
    apply list_elem_of_fmap. exists r. split; [done|].
    by apply list_elem_of_filter.
Qed.



Lemma select_eq_mask (c v : string) (rs : list Row) :
  pandas.select (pandas.eq_mask ((λ r : Row, r !! c) <$> rs) v) rs
  = filter (λ r : Row, r !! c = Some v) rs.
Proof.
  induction rs as [|r rs IH]; [done|]. rewrite filter_cons.
  unfold pandas.eq_mask in *. rewrite !fmap_cons. cbn [pandas.select]. rewrite IH.
  destruct (decide (r !! c = Some v)) as [H|H].
  - by rewrite bool_decide_eq_true_2.
  - by rewrite bool_decide_eq_false_2.
Qed.

Lemma keep_state_Ok_inv gdf code gdf' :
  keep_state gdf code = Ok gdf' →
  "STATEFP" ∈ columns gdf ∧ columns gdf' = columns gdf ∧
  rows gdf' = filter (λ r : Row, r !! "STATEFP" = Some code) (rows gdf).
Proof.
  unfold keep_state, pandas.getattr. case_bool_decide as Hc; [|done].
  cbn. intros [= <-]. cbn. by rewrite select_eq_mask.
Qed.

(** ** The join key *)

Lemma add_fmap (f g : Row → option string) (l : list Row) :
  pandas.add (f <$> l) (g <$> l) = (λ r, pandas.add_cell (f r) (g r)) <$> l.
Proof.
  unfold pandas.add. rewrite zip_with_fmap_l, zip_with_fmap_r, zip_with_diag. done.
Qed.

Lemma geoid_series_spec ep df :
  geoid_series ep df =
  if has_columns (key_columns ep) df
  then Ok (concat_cells (key_columns ep) <$> rows df)
  else Err KeyError.
Proof.
  destruct ep; unfold geoid_series, has_columns, pandas.getitem; cbn [key_columns forallb].
  all: destruct (bool_decide ("state" ∈ columns df)); cbn [mbind Result_bind andb]; [|done].
  all: destruct (bool_decide ("county" ∈ columns df)); cbn [mbind Result_bind andb]; [|done].
  2: by rewrite !add_fmap.
  all: destruct (bool_decide ("tract" ∈ columns df)); cbn [mbind Result_bind andb]; [|done].
  2: by rewrite !add_fmap.
  destruct (bool_decide ("block group" ∈ columns df)); cbn [mbind Result_bind andb]; [|done].
  by rewrite !add_fmap.
Qed.

Lemma setitem_fmap df c (f : Row → option string) :
  pandas.setitem df c (f <$> rows df)
  = Ok {| columns := {[c]} ∪ columns df;
          rows := (λ r, pandas.set_cell c r (f r)) <$> rows df |}.
Proof.
  unfold pandas.setitem. rewrite length_fmap, bool_decide_eq_true_2 by done.
  by rewrite zip_with_fmap_r, zip_with_diag.
Qed.

Lemma build_geoid_spec ep df :
  build_geoid ep df =
  if has_columns (key_columns ep) df
  then Ok {| columns := {["GEOID"]} ∪ columns df;
             rows := (λ r, pandas.set_cell "GEOID" r (concat_cells (key_columns ep) r))
                       <$> rows df |}
  else Err KeyError.
Proof.
  unfold build_geoid. rewrite geoid_series_spec.
  destruct (has_columns _ df); [|done]. cbn [mbind Result_bind].
  apply setitem_fmap.
Qed.



Lemma build_geoid_has_key ep df df' :
  build_geoid ep df = Ok df' → "GEOID" ∈ columns df'.
Proof.
  rewrite build_geoid_spec. destruct (has_columns _ df); [|done].
  intros [= <-]. cbn. apply elem_of_union_l. by apply elem_of_singleton.
Qed.





Lemma run_Ok_inv env ep survey state fields year redownload save w m w' :
  run env ep survey state fields year redownload save w = (Ok m, w') ↔
  ∃ df' gdf,
    enters_join env ep survey state fields year redownload save w df' gdf w' ∧
    _merge_dataframe_shapefile df' gdf = Ok m.
Proof.
  rewrite run_staged. unfold staged, enters_join. split.
  - intros H.
    apply bind_inv_Ok in H as (st & w0 & [Hst ->]%lift_inv_Ok & H).
    apply bind_inv_Ok in H as (gdf & w1 & Hgdf & H).
    apply bind_inv_Ok in H as (df & w2 & Hdf & H).
    apply bind_inv_Ok in H as (df' & w3 & [Hdf' ->]%lift_inv_Ok & H).
    apply lift_inv_Ok in H as [Hm ->].
    exists df', gdf. split; [|done]. by exists st, w1, df.
  - intros (df' & gdf & (st & w1 & df & Hst & Hgdf & Hdf & Hdf') & Hm).
    rewrite Hst, bind_lift_Ok. rewrite (bind_Ok _ _ _ _ _ Hgdf).
    rewrite (bind_Ok _ _ _ _ _ Hdf). rewrite Hdf', bind_lift_Ok. by rewrite Hm.
Qed.

(** ** The filesystem *)

Lemma write_file_Some p c f f' :
  os.write_file p c f = Some f' →
  files f' = <[p := c]> (files f) ∧ dirs f' = dirs f ∧ os.parent_ok f p = true.
Proof.
  unfold os.write_file.
  destruct (bool_decide (p = "")); [done|].
  destruct (os.isdir f p); [done|].
  destruct (os.parent_ok f p); [|done].
  by intros [= <-].
Qed.

Lemma write_file_None p c f :
  os.write_file p c f = None ↔
  p = "" ∨ os.isdir f p = true ∨ os.parent_ok f p = false.
Proof.
  unfold os.write_file. case_bool_decide as Hp; cbn.
  { split; [by left | done]. }
  destruct (os.isdir f p); cbn.
  { split; [by right; left | done]. }
  destruct (os.parent_ok f p); cbn.
  - split; [done | intros [?|[?|?]]; done].
  - split; [by right; right | done].
Qed.

Lemma path_exists_file f p c :
  files f !! p = Some c → os.path_exists f p = true.
Proof.
  intros H. unfold os.path_exists.
  rewrite bool_decide_eq_true_2; [done|]. apply elem_of_dom. eauto.
Qed.

Lemma write_file_exists p c f f' :
  os.write_file p c f = Some f' → os.path_exists f' p = true.
Proof.
  intros (Hf & _ & _)%write_file_Some. apply (path_exists_file _ _ c).
  by rewrite Hf, lookup_insert_eq.
Qed.

(** ** Shapefile download and load *)

Section Shapefile.

Variable env : Env.
Implicit Types (t : TigerShapefile.t) (w : World).

(** What [download] does, case by case. *)
Lemma download_unfold t w :
  TigerShapefile.download env t w =
  match http_get env (TigerShapefile.url env t) with
  | None => (Err RequestException, emit (HttpGet (TigerShapefile.url env t)) w)
  | Some body =>
      let w1 := emit (HttpGet (TigerShapefile.url env t)) w in
      match (if os.path_exists (fs w) (TigerShapefile.dir env t) then mret ()
             else os_makedirs (TigerShapefile.dir env t)) w1 with
      | (Ok _, w2) => write_bytes (TigerShapefile.filepath env t) body w2
      | (Err e, w2) => (Err e, w2)
      end
  end.
Proof.
  unfold TigerShapefile.download, requests_get, os_path_exists.
  cbv [mbind M_bind]. destruct (http_get env _); [|done]. cbn [fs emit].
  destruct (os.path_exists (fs w) _); done.
Qed.

Lemma download_fails_without_response t w :
  http_get env (TigerShapefile.url env t) = None →
  TigerShapefile.download env t w
  = (Err RequestException, emit (HttpGet (TigerShapefile.url env t)) w).
Proof. intros H. by rewrite download_unfold, H. Qed.

Lemma download_Ok t w w1 :
  TigerShapefile.download env t w = (Ok (), w1) →
  ∃ body, http_get env (TigerShapefile.url env t) = Some body ∧
    files (fs w1) !! TigerShapefile.filepath env t = Some (Bytes body) ∧
    os.path_exists (fs w1) (TigerShapefile.filepath env t) = true.
Proof.
  rewrite download_unfold. destruct (http_get env _) as [body|]; [|done].
  cbn zeta. intros H. exists body. split; [done|].
  destruct (_ (emit _ w)) as [[[]|e] w2]; [|done].
  unfold write_bytes in H.
  destruct (os.write_file _ _ (fs w2)) as [f|] eqn:Hw; [|done].
  injection H as <-. cbn. split.
  - apply write_file_Some in Hw as (-> & _). apply lookup_insert_eq.
  - by apply write_file_exists in Hw.
Qed.

(** One request per [download], whatever its outcome; no parse. *)
Lemma download_counts t w :
  downloads (trace (TigerShapefile.download env t w).2) = S (downloads (trace w)) ∧
  parses (trace (TigerShapefile.download env t w).2) = parses (trace w).
Proof.
  rewrite download_unfold. destruct (http_get env _) as [body|]; [|done].
  cbn zeta. unfold os_makedirs, write_bytes.
  destruct (os.path_exists (fs w) _); cbn.
  - destruct (os.write_file _ _ _); done.
  - destruct (os.makedirs _ _); cbn; [|done]. destruct (os.write_file _ _ _); done.
Qed.

Lemma download_error_kind t w e w1 :
  TigerShapefile.download env t w = (Err e, w1) → e = RequestException ∨ e = OSError.
Proof.
  rewrite download_unfold. destruct (http_get env _) as [body|]; [|intros [= <- _]; by left].
  cbn zeta. unfold os_makedirs, write_bytes.
  destruct (os.path_exists (fs w) _); cbn.
  - destruct (os.write_file _ _ _); [done | intros [= <- _]; by right].
  - destruct (os.makedirs _ _); cbn; [|intros [= <- _]; by right].
    destruct (os.write_file _ _ _); [done | intros [= <- _]; by right].
Qed.

Lemma read_file_counts p w :
  downloads (trace (geopandas_read_file env p w).2) = downloads (trace w) ∧
  parses (trace (geopandas_read_file env p w).2) = S (parses (trace w)) ∧
  fs (geopandas_read_file env p w).2 = fs w ∧
  (geopandas_read_file env p w).1 ≠ Err RecursionError.
Proof.
  unfold geopandas_read_file.
  destruct (files (fs w) !! p) as [[b|df]|]; [destruct (parse_shapefile env b)|..]; done.
Qed.

(** [load] with the file in place: one parse. *)
Lemma load_rec_present depth t w :
  os.path_exists (fs w) (TigerShapefile.filepath env t) = true →
  TigerShapefile.load_rec env (S depth) t w
  = geopandas_read_file env (TigerShapefile.filepath env t) w.
Proof.
  intros H. cbn [TigerShapefile.load_rec]. unfold os_path_exists.
  cbv [mbind M_bind]. by rewrite H.
Qed.

(** [load] without the file: a download, then the same call once more,
    which finds the file. *)
Lemma load_rec_absent depth t w :
  os.path_exists (fs w) (TigerShapefile.filepath env t) = false →
  TigerShapefile.load_rec env (S (S depth)) t w =
  match TigerShapefile.download env t w with
  | (Ok _, w1) => geopandas_read_file env (TigerShapefile.filepath env t) w1
  | (Err e, w1) => (Err e, w1)
  end.
Proof.
  intros H. remember (S depth) as d eqn:Hd.
  cbn [TigerShapefile.load_rec]. unfold os_path_exists at 1.
  cbv [mbind M_bind]. rewrite H.
  destruct (TigerShapefile.download env t w) as [[[]|e] w1] eqn:Hdl; [|done].
  subst d. apply load_rec_present. by apply download_Ok in Hdl as (? & _ & _ & ?).
Qed.

(** Two frames are all [load] ever uses. *)
Lemma load_rec_depth depth t w :
  (2 ≤ depth)%nat →
  TigerShapefile.load_rec env depth t w = TigerShapefile.load_rec env 2 t w.
Proof.
  intros H. destruct depth as [|[|depth]]; [lia..|].
  destruct (os.path_exists (fs w) (TigerShapefile.filepath env t)) eqn:Hex.
  - by rewrite !load_rec_present.
  - by rewrite !load_rec_absent.
Qed.

Lemma load_depth t w :
  TigerShapefile.load env t w = TigerShapefile.load_rec env 2 t w.
Proof. apply load_rec_depth. unfold recursion_limit. lia. Qed.

End Shapefile.

(** ** C7: [load] terminates after at most one download *)

Lemma downloads_cons e tr :
  downloads (e :: tr) = if is_HttpGet e then S (downloads tr) else downloads tr.
Proof. unfold downloads. rewrite filter_cons. destruct e; cbn; case_decide; done. Qed.

Lemma parses_cons e tr :
  parses (e :: tr) = if is_ReadShapefile e then S (parses tr) else parses tr.
Proof. unfold parses. rewrite filter_cons. destruct e; cbn; case_decide; done. Qed.

Ltac count_calls :=
  cbn [app]; rewrite ?parses_cons, ?downloads_cons; cbn [is_HttpGet is_ReadShapefile];
  try done; try lia.

(** A parse reads the file and leaves the world as it was, the call
    recorded. *)
Lemma read_file_bytes env p w b :
  files (fs w) !! p = Some (Bytes b) →
  geopandas_read_file env p w
  = (match parse_shapefile env b with
     | Some gdf => Ok gdf
     | None => Err DriverError
     end, emit (ReadShapefile p) w).
Proof.
  intros H. unfold geopandas_read_file. rewrite H. by destruct (parse_shapefile env b).
Qed.

Lemma read_file_world env p w :
  (geopandas_read_file env p w).2 = emit (ReadShapefile p) w.
Proof.
  unfold geopandas_read_file.
  destruct (files (fs w) !! p) as [[b|df]|]; [destruct (parse_shapefile env b)|..]; done.
Qed.

(** A file that parsed once parses again, to the same table. *)
Lemma read_file_again env p w gdf w' :
  geopandas_read_file env p w = (Ok gdf, w') →
  os.path_exists (fs w') p = true ∧
  geopandas_read_file env p w' = (Ok gdf, emit (ReadShapefile p) w').
Proof.
  unfold geopandas_read_file.
  destruct (files (fs w) !! p) as [[b|df]|] eqn:Hf; [|done..].
  destruct (parse_shapefile env b) as [g|] eqn:Hp; [|done].
  intros [= -> <-]. cbn [fs emit]. rewrite Hf, Hp. split; [|done].
  by apply (path_exists_file _ _ (Bytes b)).
Qed.

(** C7.  For every shapefile object and every world, [TigerShapefile.load]
    returns within two frames, whatever the recursion depth allowed (so
    never with [RecursionError]).  If the local file exists it is parsed,
    no request is made and the filesystem is left as it was.  Otherwise
    exactly one request is made, and every path of the call is one of
    four: the request raises, and nothing is stored or parsed; the
    directory cannot be made, or the file cannot be written, and the call
    raises [OSError] with nothing parsed; or the response is stored at the
    path (its directory made first when missing), and the file, which now
    holds the body of the response, is parsed once, the outcome of that
    parse being the outcome of the call.  After a [load] that returned a
    table the file exists and a second [load] parses it again, to the same
    table, with no request. *)
Theorem load_terminates_with_at_most_one_download
    (env : Env) (t : TigerShapefile.t) (w : World) (depth : nat) :
  (2 ≤ depth)%nat →
  let p := TigerShapefile.filepath env t in
  let d := TigerShapefile.dir env t in
  let u := TigerShapefile.url env t in
  ∃ r w',
    TigerShapefile.load_rec env depth t w = (r, w') ∧
    TigerShapefile.load env t w = (r, w') ∧
    r ≠ Err RecursionError ∧
    (** a second call *)
    (is_Ok r = true →
       os.path_exists (fs w') p = true ∧
       TigerShapefile.load env t w' = (r, emit (ReadShapefile p) w')) ∧
    (** the requests and the parses made *)
    (downloads (trace w') =
       if os.path_exists (fs w) p then downloads (trace w) else S (downloads (trace w))) ∧
    (parses (trace w') ≤ S (parses (trace w)))%nat ∧
    (** the call, path by path *)
    if os.path_exists (fs w) p
    then (r, w') = geopandas_read_file env p w ∧
         fs w' = fs w ∧
         trace w' = ReadShapefile p :: trace w
    else
      match http_get env u with
      | None =>
          r = Err RequestException ∧ fs w' = fs w ∧ trace w' = HttpGet u :: trace w
      | Some body =>
          let present := os.path_exists (fs w) d in
          let made := if present then [] else [Makedirs d] in
          match (if present then Some (fs w) else os.makedirs d (fs w)) with
          | None =>
              r = Err OSError ∧ fs w' = fs w ∧
              trace w' = (made ++ HttpGet u :: trace w)%list
          | Some f1 =>
              match os.write_file p (Bytes body) f1 with
              | None =>
                  r = Err OSError ∧ fs w' = f1 ∧
                  trace w' = (WriteFile p :: made ++ HttpGet u :: trace w)%list
              | Some f2 =>
                  fs w' = f2 ∧
                  files (fs w') !! p = Some (Bytes body) ∧
                  r = match parse_shapefile env body with
                      | Some gdf => Ok gdf
                      | None => Err DriverError
                      end ∧
                  trace w' = (ReadShapefile p :: WriteFile p :: made
                                ++ HttpGet u :: trace w)%list
              end
          end
      end.
Proof.
  intros Hdepth p d u.
  rewrite load_depth, (load_rec_depth env depth t w Hdepth).
  assert (∀ r w', geopandas_read_file env p w = (r, w') ∨
                  (∃ w0, geopandas_read_file env p w0 = (r, w')) →
            is_Ok r = true →
            os.path_exists (fs w') p = true ∧
            TigerShapefile.load env t w' = (r, emit (ReadShapefile p) w')) as Hagain.
  { intros r w' Hread Hok. destruct r as [gdf|e]; [|done].
    assert (∃ w0, geopandas_read_file env p w0 = (Ok gdf, w')) as [w0 H0].
    { destruct Hread as [H|H]; [by exists w | done]. }
    apply read_file_again in H0 as [Hex' Hread'].
    split; [done|]. rewrite load_depth, load_rec_present by done. exact Hread'. }
  destruct (os.path_exists (fs w) p) eqn:Hex.
  - rewrite load_rec_present by done. fold p.
    destruct (read_file_counts env p w) as (Hd & Hp & Hfs & Hne).
    pose proof (read_file_world env p w) as Hw.
    destruct (geopandas_read_file env p w) as [r w'] eqn:Hread. cbn [fst snd] in *.
    exists r, w'. split; [done|]. split; [done|]. split; [done|].
    split; [apply Hagain; by left|]. split; [done|]. split; [lia|].
    split; [done|]. split; [done|]. by rewrite Hw.
  - rewrite load_rec_absent by done. fold p. rewrite download_unfold. fold u d p.
    destruct (http_get env u) as [body|] eqn:Hget.
    2: { exists (Err RequestException), (emit (HttpGet u) w).
         cbn [fs emit trace]. repeat split; count_calls. }
    cbn zeta. unfold os_makedirs, write_bytes.
    destruct (os.path_exists (fs w) d) eqn:Hdir; cbn [mret M_ret emit fs set_fs].
    + destruct (os.write_file p (Bytes body) (fs w)) as [f2|] eqn:Hwr.
      2: { eexists _, _. split; [reflexivity|]. split; [reflexivity|].
           cbn [fs emit trace]. repeat split; count_calls. }
      assert (files f2 !! p = Some (Bytes body)) as Hf2.
      { apply write_file_Some in Hwr as (-> & _). apply lookup_insert_eq. }
      rewrite (read_file_bytes env p _ body) by done.
      eexists _, _. split; [reflexivity|]. split; [reflexivity|].
      split; [by destruct (parse_shapefile env body)|].
      split.
      { apply Hagain. right. eexists. by apply (read_file_bytes env p _ body). }
      cbn [fs emit trace set_fs]. repeat split; count_calls.
    + destruct (os.makedirs d (fs w)) as [f1|] eqn:Hmk; cbn [fs emit set_fs trace].
      2: { eexists _, _. split; [reflexivity|]. split; [reflexivity|].
           cbn [fs emit trace]. repeat split; count_calls. }
      destruct (os.write_file p (Bytes body) f1) as [f2|] eqn:Hwr.
      2: { eexists _, _. split; [reflexivity|]. split; [reflexivity|].
           cbn [fs emit trace set_fs]. repeat split; count_calls. }
      assert (files f2 !! p = Some (Bytes body)) as Hf2.
      { apply write_file_Some in Hwr as (-> & _). apply lookup_insert_eq. }
      rewrite (read_file_bytes env p _ body) by done.
      eexists _, _. split; [reflexivity|]. split; [reflexivity|].
      split; [by destruct (parse_shapefile env body)|].
      split.
      { apply Hagain. right. eexists. by apply (read_file_bytes env p _ body). }
      cbn [fs emit trace set_fs]. repeat split; count_calls.
Qed.

(** ** C9: a failed request leaves the filesystem alone *)

(** C9.  If the HTTP GET of [TigerShapefile.download] raises, the download
    ends there with that exception: the filesystem is unchanged (no
    directory created, no file written) and the request is the only call
    made.  In any run of [download] the request is the first call, so the
    filesystem changes only after a response has arrived. *)
Theorem download_failed_request_leaves_filesystem
    (env : Env) (t : TigerShapefile.t) (w : World) :
  http_get env (TigerShapefile.url env t) = None →
  TigerShapefile.download env t w
    = (Err RequestException, emit (HttpGet (TigerShapefile.url env t)) w) ∧
  fs (TigerShapefile.download env t w).2 = fs w ∧
  trace (TigerShapefile.download env t w).2 = HttpGet (TigerShapefile.url env t) :: trace w ∧
  (∀ env' w0, fs (TigerShapefile.download env' t w0).2 ≠ fs w0 →
     ∃ body (later : list Event), http_get env' (TigerShapefile.url env' t) = Some body ∧
       trace (TigerShapefile.download env' t w0).2
       = (later ++ HttpGet (TigerShapefile.url env' t) :: trace w0)%list).
Proof.
  intros H. rewrite (download_fails_without_response env t w H). cbn.
  repeat split. intros env' w0. rewrite download_unfold.
  destruct (http_get env' _) as [body|]; [|done]. cbn zeta. intros Hfs.
  exists body. unfold os_makedirs, write_bytes in *.
  destruct (os.path_exists (fs w0) _); cbn in *.
  - destruct (os.write_file _ _ _); cbn in *; [|done].
    by exists [WriteFile (TigerShapefile.filepath env' t)].
  - destruct (os.makedirs _ _); cbn in *; [|done].
    destruct (os.write_file _ _ _); cbn in *.
    + by exists [WriteFile (TigerShapefile.filepath env' t); Makedirs (TigerShapefile.dir env' t)].
    + by exists [WriteFile (TigerShapefile.filepath env' t); Makedirs (TigerShapefile.dir env' t)].
Qed.

(** ** The survey cache *)

Section Survey.

Variable env : Env.
Implicit Types (sd : SurveyData.t) (w : World).

Lemma check_exists_spec sd w :
  SurveyData.check_exists env sd w
  = (Ok (os.path_exists (fs w) (SurveyData.filepath env sd)), w).
Proof.
  unfold SurveyData.check_exists, os_path_exists. cbv [mbind M_bind mret M_ret].
  by destruct (os.path_exists _ _).
Qed.

Lemma save_spec sd df w :
  SurveyData.save env sd df w =
  match os.write_file (SurveyData.filepath env sd) (Pickle df) (fs w) with
  | Some f => (Ok (), emit (ToPickle (SurveyData.filepath env sd)) (set_fs f w))
  | None => (Err OSError, emit (ToPickle (SurveyData.filepath env sd)) w)
  end.
Proof. done. Qed.

(** The survey stage, case by case. *)
Lemma survey_table_spec ep survey st fields redownload save w :
  let sd := cache_of ep survey st in
  let p := SurveyData.filepath env sd in
  let q := query_of ep survey fields (fips st) in
  let asked := emit (SurveyQuery (census.dataset survey) (level_of ep) (fips st)) w in
  survey_table env ep survey st fields redownload save w =
  if os.path_exists (fs w) p && negb redownload then pandas_read_pickle env p w
  else match q with
       | None => (Err CensusException, asked)
       | Some records =>
           if save then
             match os.write_file p (Pickle (pandas.of_records records)) (fs w) with
             | Some f => (Ok (pandas.of_records records), emit (ToPickle p) (set_fs f asked))
             | None => (Err OSError, emit (ToPickle p) asked)
             end
           else (Ok (pandas.of_records records), asked)
       end.
Proof.
  intros sd p q asked. unfold survey_table. fold sd.
  unfold mbind at 1. unfold M_bind. rewrite check_exists_spec. fold p.
  destruct (os.path_exists (fs w) p && negb redownload); [done|].
  unfold survey_query. fold q. cbv [mbind M_bind mret M_ret].
  destruct q as [records|]; [|done]. fold asked.
  destruct save; [|done]. rewrite save_spec. fold p. cbn [fs emit asked].
  by destruct (os.write_file _ _ _).
Qed.

Lemma read_pickle_trace p w :
  trace (pandas_read_pickle env p w).2 = ReadPickle p :: trace w ∧
  fs (pandas_read_pickle env p w).2 = fs w.
Proof.
  unfold pandas_read_pickle. by destruct (files (fs w) !! p) as [[]|].
Qed.


End Survey.

(** After the survey stage an entry point only computes. *)
Lemma run_after_survey env ep survey state fields year redownload save w st gdf w1 :
  _parse_state env state [] = Ok st →
  shapefile_table env ep st year w = (Ok gdf, w1) →
  run env ep survey state fields year redownload save w =
  let '(r, w') := survey_table env ep survey st fields redownload save w1 in
  (df ← r; df' ← build_geoid ep df; _merge_dataframe_shapefile df' gdf, w').
Proof.
  intros Hst Hgdf. rewrite run_staged. unfold staged.
  rewrite Hst, bind_lift_Ok, (bind_Ok _ _ _ _ _ Hgdf).
  cbv [mbind M_bind lift Result_bind].
  destruct (survey_table _ _ _ _ _ _ _ _) as [[df|e] w']; [|done].
  by destruct (build_geoid ep df).
Qed.





(** ** C3: cache or fresh query *)


(** ** C5: state resolution fails fast *)

(** C5.  [_parse_state] fails exactly when its argument is text that the
    state table does not know, or is neither text nor a state object; the
    exception is [ValueError] (the spec's InvalidStateError).  It is a
    function of its arguments alone, and every entry point given such an
    argument raises at once: the world it returns is the world it got, with
    no call made and the filesystem untouched. *)
Theorem parse_state_fails_fast (env : Env) (state : PyVal) (kwargs : Kwargs) :
  (is_Ok (_parse_state env state kwargs) = false ↔
     (∃ text, state = PyStr text ∧ lookup env text kwargs = None) ∨
     ((∀ text, state ≠ PyStr text) ∧ (∀ st, state ≠ PyState st))) ∧
  (∀ e, _parse_state env state kwargs = Err e → e = ValueError) ∧
  (∀ st, _parse_state env (PyState st) kwargs = Ok st) ∧
  (∀ ep survey fields year redownload save w,
     is_Ok (_parse_state env state []) = false →
     run env ep survey state fields year redownload save w = (Err ValueError, w)) ∧
  (∀ geounit year us_only survey,
     is_Ok (_parse_state env state []) = false →
     TigerShapefile.__init__ env state geounit year us_only = Err ValueError ∧
     SurveyData.__init__ env survey state geounit = Err ValueError).
Proof.
  assert (∀ kw e, _parse_state env state kw = Err e → e = ValueError) as Hkind.
  { intros kw e. destruct state as [text| | |]; cbn; [destruct (lookup env text kw)|..]; congruence. }
  repeat split.
  - destruct state as [text|st|z|]; cbn.
    + destruct (lookup env text kwargs) eqn:E; [done|]. intros _. left. eauto.
    + done.
    + intros _. right. done.
    + intros _. right. done.
  - intros [(text & -> & H)|[H1 H2]]; cbn.
    + by rewrite H.
    + destruct state as [text|st|z|]; [by destruct (H1 text) | by destruct (H2 st) | done..].
  - apply Hkind.
  - intros ep survey fields year redownload save w H.
    rewrite run_staged. unfold staged.
    destruct (_parse_state env state []) as [st|e] eqn:E; [done|].
    by rewrite (Hkind _ _ E).
  - unfold TigerShapefile.__init__.
    destruct (_parse_state env state []) as [st|e] eqn:E; [done|].
    by rewrite (Hkind _ _ E).
  - unfold SurveyData.__init__.
    destruct (_parse_state env state []) as [st|e] eqn:E; [done|].
    by rewrite (Hkind _ _ E).
Qed.

(** ** C1: the merged result is the inner join on GEOID *)


(** ** C2: the county entry point keeps the rows of its state *)

(** C2.  In a successful run of [get_counties] the shapefile table that
    enters the join is the table [load] returned, restricted to the rows
    whose [STATEFP] cell equals the FIPS code of the resolved state: those
    rows, all of them, in their order, with every column.  The result is
    the join of that restricted table with the survey table of the run, so
    a pair is in the result exactly when its shapefile row is a row of the
    loaded table with the [STATEFP] of the state and its survey row has
    the same key; no row of another state is in the result. *)
Theorem get_counties_restricts_shapefile_to_state
    (env : Env) (survey : census.Client) (state : PyVal) (fields : Fields)
    (year : Z) (redownload save : bool) (w : World)
    (m : list (Row * Row)) (w' : World) :
  get_counties env survey state fields year redownload save w = (Ok m, w') →
  ∃ st national w1 df df' gdf,
    (** the state resolved and the national table loaded *)
    _parse_state env state [] = Ok st ∧
    TigerShapefile.load env (shapefile_of Counties st year) w = (Ok national, w1) ∧
    "STATEFP" ∈ columns national ∧
    (** the survey table of the run, and the same with its key *)
    survey_table env Counties survey st fields redownload save w1 = (Ok df, w') ∧
    build_geoid Counties df = Ok df' ∧
    (** the shapefile table that enters the join *)
    gdf = {| columns := columns national;
             rows := filter (λ r : Row, r !! "STATEFP" = Some (fips st)) (rows national) |} ∧
    keep_state national (fips st) = Ok gdf ∧
    shapefile_table env Counties st year w = (Ok gdf, w1) ∧
    (∀ r, r ∈ rows gdf ↔ r ∈ rows national ∧ r !! "STATEFP" = Some (fips st)) ∧
    _merge_dataframe_shapefile df' gdf = Ok m ∧
    (** the result *)
    m = (g ← filter (λ r : Row, r !! "STATEFP" = Some (fips st)) (rows national);
         (λ d, (g, d)) <$> filter (λ d : Row, d !! "GEOID" = g !! "GEOID") (rows df')) ∧
    (∀ g d, (g, d) ∈ m ↔
       g ∈ rows national ∧ g !! "STATEFP" = Some (fips st) ∧
       d ∈ rows df' ∧ key_of d = key_of g) ∧
    (∀ g, g ∈ rows national → g !! "STATEFP" ≠ Some (fips st) → ∀ d, (g, d) ∉ m).
Proof.
  intros Hrun. apply (run_Ok_inv env Counties) in Hrun
    as (df' & gdf & (st & w1 & df & Hst & Hgdf & Hdf & Hdf') & Hm).
  pose proof Hgdf as Htable. unfold shapefile_table in Hgdf.
  apply bind_inv_Ok in Hgdf as (national & w0 & Hload & [Hkeep ->]%lift_inv_Ok).
  pose proof Hkeep as (Hcol & Hcols & Hrows)%keep_state_Ok_inv.
  assert (gdf = {| columns := columns national;
                   rows := filter (λ r : Row, r !! "STATEFP" = Some (fips st))
                             (rows national) |}) as Hgdf.
  { destruct gdf as [c r]. cbn in Hcols, Hrows. by rewrite Hcols, Hrows. }
  assert (∀ r, r ∈ rows gdf ↔ r ∈ rows national ∧ r !! "STATEFP" = Some (fips st)) as Hin.
  { intros r. rewrite Hrows, list_elem_of_filter. tauto. }
  assert (∀ g d, (g, d) ∈ m ↔
            g ∈ rows national ∧ g !! "STATEFP" = Some (fips st) ∧
            d ∈ rows df' ∧ key_of d = key_of g) as Hpair.
  { intros g d. rewrite (elem_of_merge _ _ _ _ g d Hm), Hin. unfold key_of. tauto. }
  exists st, national, w0, df, df', gdf.
  split; [done|]. split; [done|]. split; [done|]. split; [done|]. split; [done|].
  split; [done|]. split; [done|]. split; [done|]. split; [done|]. split; [done|].
  split; [|split; [done|]].
  - apply merge_Ok_inv in Hm as (_ & _ & ->). by rewrite Hrows.
  - intros g _ Hne d (_ & Hg & _)%Hpair. done.
Qed.

(** ** Text *)

Lemma app_cons (x : ascii) (a b : string) : String x a +:+ b = String x (a +:+ b).
Proof. reflexivity. Qed.

Lemma app_nil_l_str (a : string) : "" +:+ a = a.
Proof. reflexivity. Qed.

Lemma length_app (a b : string) :
  String.length (a +:+ b) = (String.length a + String.length b)%nat.
Proof.
  induction a as [|c a IH]; [done|]. rewrite app_cons. cbn [String.length]. by rewrite IH.
Qed.

Lemma app_assoc_str (a b c : string) : (a +:+ b) +:+ c = a +:+ b +:+ c.
Proof. induction a as [|x a IH]; [done|]. rewrite !app_cons. by rewrite IH. Qed.

(** ** C4: the county key *)


(** ** C10: the key is rebuilt on every call *)


(** ** Text, continued *)

Lemma app_inv_tail_len (a b s t : string) :
  String.length s = String.length t → a +:+ s = b +:+ t → a = b ∧ s = t.
Proof.
  revert b. induction a as [|x a IH]; intros [|y b] Hlen H.
  - done.
  - apply (f_equal String.length) in H. rewrite !length_app in H.
    cbn [String.length] in H. lia.
  - apply (f_equal String.length) in H. rewrite !length_app in H.
    cbn [String.length] in H. lia.
  - rewrite !app_cons in H. injection H as -> H.
    destruct (IH b Hlen H) as [-> ->]. done.
Qed.

Lemma app_inv_tail_str (a b t : string) : a +:+ t = b +:+ t → a = b.
Proof. intros H. by apply (app_inv_tail_len a b t t) in H as [? _]. Qed.

Lemma contains_app c a b : contains c (a +:+ b) = contains c a || contains c b.
Proof.
  induction a as [|x a IH]; [done|]. rewrite app_cons. cbn. by rewrite IH, orb_assoc.
Qed.

(** Two texts cut at the first occurrence of a character agree piece by
    piece. *)
Lemma split_at_first c (a1 a2 r1 r2 : string) :
  contains c a1 = false → contains c a2 = false →
  a1 +:+ String c r1 = a2 +:+ String c r2 → a1 = a2 ∧ r1 = r2.
Proof.
  revert a2. induction a1 as [|x a1 IH]; intros [|y a2] H1 H2 H.
  - by injection H as ->.
  - rewrite app_cons in H. injection H as <- _. cbn in H2.
    by rewrite bool_decide_eq_true_2 in H2.
  - rewrite app_cons in H. injection H as -> _. cbn in H1.
    by rewrite bool_decide_eq_true_2 in H1.
  - rewrite !app_cons in H. injection H as -> H. cbn in H1, H2.
    apply orb_false_iff in H1 as [_ H1]. apply orb_false_iff in H2 as [_ H2].
    destruct (IH a2 H1 H2 H) as [-> ->]. done.
Qed.

(** Decimal numerals have digits and a sign, nothing else. *)
Lemma pretty_N_go_contains c x s :
  (∀ d, pretty_N_char d ≠ c) → contains c s = false →
  contains c (pretty_N_go x s) = false.
Proof.
  intros Hc. revert s. induction (N.lt_wf_0 x) as [x _ IH]; intros s Hs.
  assert (x = 0 ∨ 0 < x)%N as [->|?] by lia.
  - by rewrite pretty_N_go_0.
  - rewrite pretty_N_go_step by done. apply IH.
    { by apply N.div_lt. }
    cbn. rewrite Hs, orb_false_r. apply bool_decide_eq_false_2, Hc.
Qed.

Lemma pretty_Z_no_underscore (z : Z) : contains "_" (pretty z) = false.
Proof.
  assert (∀ d, pretty_N_char d ≠ "_"%char) as Hd.
  { intros d. unfold pretty_N_char. by repeat case_match. }
  assert (∀ n : N, contains "_" (pretty n) = false) as HN.
  { intros n. unfold pretty, pretty_N. case_decide; [done|].
    by apply pretty_N_go_contains. }
  destruct z as [|p|p]; unfold pretty, pretty_Z; [done | apply HN |].
  change ("-" +:+ pretty p) with (String "-" (pretty (N.pos p))).
  cbn [contains]. by rewrite HN.
Qed.

Lemma lower_ascii_idemp c : Str.lower_ascii (Str.lower_ascii c) = Str.lower_ascii c.
Proof. by destruct c as [[] [] [] [] [] [] [] []]. Qed.

Lemma lower_idemp s : Str.ascii_lower (Str.ascii_lower s) = Str.ascii_lower s.
Proof.
  induction s as [|c s IH]; [done|]. cbn. by rewrite lower_ascii_idemp, IH.
Qed.

Lemma isascii_lower_ascii c : Str.isascii_unit (Str.lower_ascii c) = Str.isascii_unit c.
Proof. by destruct c as [[] [] [] [] [] [] [] []]. Qed.

(** Folding the letters of a text keeps it ASCII, or not. *)
Lemma isascii_lower s : Str.isascii (Str.ascii_lower s) = Str.isascii s.
Proof.
  induction s as [|c s IH]; [done|]. cbn. by rewrite isascii_lower_ascii, IH.
Qed.

Lemma str_lower_ascii env s : Str.isascii s = true → str_lower env s = Str.ascii_lower s.
Proof. intros H. unfold str_lower. by rewrite H. Qed.

Lemma str_upper_ascii env s : Str.isascii s = true → str_upper env s = Str.ascii_upper s.
Proof. intros H. unfold str_upper. by rewrite H. Qed.

(** On ASCII text lower-casing twice is lower-casing once. *)
Lemma str_lower_twice_ascii env s :
  Str.isascii s = true → str_lower env (str_lower env s) = Str.ascii_lower s.
Proof.
  intros H. rewrite (str_lower_ascii env s H).
  rewrite str_lower_ascii by (by rewrite isascii_lower). apply lower_idemp.
Qed.

(** ** Paths *)

Lemma endswith_sep_app (a b : string) :
  b ≠ "" → Str.endswith_sep (a +:+ b) = Str.endswith_sep b.
Proof.
  intros Hb. induction a as [|x a IH]; [done|]. rewrite app_cons.
  cbn [Str.endswith_sep]. destruct (a +:+ b) eqn:E; [|done].
  destruct a, b; done.
Qed.

Lemma join_plain (a b : string) :
  Str.startswith_sep b = false → a ≠ "" → Str.endswith_sep a = false →
  os_path.join a b = a +:+ "/" +:+ b.
Proof.
  intros Hb Ha He. unfold os_path.join. rewrite Hb, He.
  by rewrite bool_decide_eq_false_2.
Qed.

(** [join] keeps its second argument at the end. *)
Lemma join_suffix (a b : string) : ∃ pre, os_path.join a b = pre +:+ b.
Proof.
  unfold os_path.join. destruct (Str.startswith_sep b); [by exists ""|].
  destruct (_ || _); [by exists a|]. exists (a +:+ "/"). by rewrite app_assoc_str.
Qed.

(** The [files] directory of the package. *)
Lemma files_dir_plain env :
  let root := os_path.join (module_dir env) "files" in
  root ≠ "" ∧ Str.endswith_sep root = false.
Proof.
  cbn zeta. destruct (join_suffix (module_dir env) "files") as [pre ->]. split.
  - by destruct pre.
  - by rewrite endswith_sep_app.
Qed.

Lemma upper_not_sep c : Str.is_upper_ascii c = true → c ≠ "/"%char.
Proof. by intros H ->. Qed.

Lemma upper_not_t c : Str.is_upper_ascii c = true → c ≠ "t"%char.
Proof. by intros H ->. Qed.

Lemma canonical_inv st :
  canonical st = true →
  ∃ a b c d, abbr st = String a (String b "") ∧ fips st = String c (String d "") ∧
    Str.is_upper_ascii a = true ∧ Str.is_upper_ascii b = true.
Proof.
  unfold canonical. rewrite !andb_true_iff, !bool_decide_eq_true.
  intros [[[Hla Hua] Hlf] _].
  destruct (abbr st) as [|a [|b [|]]]; try done.
  destruct (fips st) as [|c [|d [|]]]; try done.
  cbn in Hua. apply andb_true_iff in Hua as [Ha [Hb _]%andb_true_iff].
  by exists a, b, c, d.
Qed.

Section ShapefilePaths.

Variable env : Env.

Lemma filename_plain t : Str.startswith_sep (TigerShapefile.filename env t) = false.
Proof. unfold TigerShapefile.filename. by case_bool_decide. Qed.

Lemma filename_zip t : ∃ pre, TigerShapefile.filename env t = pre +:+ ".zip".
Proof.
  unfold TigerShapefile.filename. case_bool_decide.
  - exists ("tl_" +:+ pretty (TigerShapefile.year t) +:+ "_us_"
              +:+ str_lower env (TigerShapefile.geounit t)).
    by rewrite !app_assoc_str.
  - exists ("tl_" +:+ pretty (TigerShapefile.year t) +:+ "_"
              +:+ fips (TigerShapefile.state t) +:+ "_"
              +:+ str_lower env (TigerShapefile.geounit t)).
    by rewrite !app_assoc_str.
Qed.

Lemma filepath_zip t : ∃ pre, TigerShapefile.filepath env t = pre +:+ ".zip".
Proof.
  unfold TigerShapefile.filepath.
  destruct (join_suffix (TigerShapefile.dir env t) (TigerShapefile.filename env t)) as [p1 ->].
  destruct (filename_zip t) as [p2 ->]. exists (p1 +:+ p2). by rewrite app_assoc_str.
Qed.

(** The path of a national file. *)
Lemma filepath_national t :
  TigerShapefile.geounit t ∈ TigerShapefile.us_only t →
  TigerShapefile.filepath env t =
  os_path.join (module_dir env) "files" +:+ "/" +:+ "tl_" +:+ pretty (TigerShapefile.year t)
    +:+ "_us_" +:+ str_lower env (TigerShapefile.geounit t) +:+ ".zip".
Proof.
  intros Hn. destruct (files_dir_plain env) as [Hne Hend].
  unfold TigerShapefile.filepath. rewrite join_plain.
  - unfold TigerShapefile.dir, TigerShapefile.filename.
    by rewrite !bool_decide_eq_true_2.
  - apply filename_plain.
  - unfold TigerShapefile.dir. by rewrite bool_decide_eq_true_2.
  - unfold TigerShapefile.dir. by rewrite bool_decide_eq_true_2.
Qed.

(** The directory of a per-state file. *)
Lemma dir_state t a b :
  TigerShapefile.geounit t ∉ TigerShapefile.us_only t →
  abbr (TigerShapefile.state t) = String a (String b "") →
  Str.is_upper_ascii a = true →
  TigerShapefile.dir env t
  = os_path.join (module_dir env) "files" +:+ "/" +:+ String a (String b "").
Proof.
  intros Hn Habbr Ha. destruct (files_dir_plain env) as [Hne Hend].
  unfold TigerShapefile.dir. rewrite bool_decide_eq_false_2 by done. cbn [negb].
  rewrite Habbr. apply join_plain; [|done..].
  cbn. by apply bool_decide_eq_false_2, upper_not_sep.
Qed.

(** The path of a per-state file. *)
Lemma filepath_state t a b :
  TigerShapefile.geounit t ∉ TigerShapefile.us_only t →
  abbr (TigerShapefile.state t) = String a (String b "") →
  Str.is_upper_ascii a = true → Str.is_upper_ascii b = true →
  TigerShapefile.filepath env t =
  os_path.join (module_dir env) "files" +:+ "/" +:+ String a (String b "") +:+ "/"
    +:+ "tl_" +:+ pretty (TigerShapefile.year t) +:+ "_" +:+ fips (TigerShapefile.state t)
    +:+ "_" +:+ str_lower env (TigerShapefile.geounit t) +:+ ".zip".
Proof.
  intros Hn Habbr Ha Hb. destruct (files_dir_plain env) as [Hne Hend].
  pose proof (dir_state t a b Hn Habbr Ha) as Hdir.
  unfold TigerShapefile.filepath. rewrite join_plain.
  - rewrite Hdir. unfold TigerShapefile.filename.
    rewrite bool_decide_eq_false_2 by done. by rewrite !app_assoc_str.
  - apply filename_plain.
  - rewrite Hdir. by destruct (os_path.join _ _).
  - rewrite Hdir, <-app_assoc_str, endswith_sep_app by done.
    cbn. by apply bool_decide_eq_false_2, upper_not_sep.
Qed.

End ShapefilePaths.

(** ** C6: which shapefile objects share a path *)

Ltac peel H :=
  repeat first
    [ apply (inj (String.append _)) in H
    | match type of H with String ?c _ = String ?c _ => injection H as H end
    | progress rewrite ?app_cons, ?app_nil_l_str in H ].

Lemma year_prefix_inj (y1 y2 : Z) (r1 r2 : string) :
  pretty y1 +:+ "_" +:+ r1 = pretty y2 +:+ "_" +:+ r2 → y1 = y2 ∧ r1 = r2.
Proof.
  intros H. apply split_at_first in H as [Hy ->]; [|apply pretty_Z_no_underscore..].
  split; [|done]. by apply (inj pretty).
Qed.

(** C6 as amended.  The local path is a function of the state, the unit
    and the year, and for canonical states it is injective up to the
    lower-casing of the unit, which the constructor applies and the file
    name applies once more: two objects built from (state, unit, year) have
    the same path exactly when the years are equal, the units are equal
    once lower-cased as the code does, and either both units are national
    (in [us_only]), or neither is and the states are equal.  For ASCII
    units this reads: the years are equal, the units are equal up to letter
    case, and either that unit is national or the states are equal. *)
Theorem shapefile_path_injective_up_to_case
    (env : Env) (st1 st2 : State) (g1 g2 : string) (y1 y2 : Z)
    (us_only : list string) (t1 t2 : TigerShapefile.t) :
  canonical st1 = true → canonical st2 = true →
  TigerShapefile.__init__ env (PyState st1) g1 y1 us_only = Ok t1 →
  TigerShapefile.__init__ env (PyState st2) g2 y2 us_only = Ok t2 →
  (TigerShapefile.filepath env t1 = TigerShapefile.filepath env t2 ↔
     y1 = y2 ∧
     str_lower env (str_lower env g1) = str_lower env (str_lower env g2) ∧
     ((str_lower env g1 ∈ us_only ∧ str_lower env g2 ∈ us_only) ∨
      ((str_lower env g1 ∉ us_only) ∧ (str_lower env g2 ∉ us_only) ∧ st1 = st2))) ∧
  (Str.isascii g1 = true → Str.isascii g2 = true →
   (TigerShapefile.filepath env t1 = TigerShapefile.filepath env t2 ↔
      y1 = y2 ∧ Str.ascii_lower g1 = Str.ascii_lower g2 ∧
      (Str.ascii_lower g1 ∈ us_only ∨ st1 = st2))).
Proof.
  intros Hc1 Hc2 [= <-] [= <-].
  destruct (canonical_inv _ Hc1) as (a1 & b1 & c1 & d1 & Ha1 & Hf1 & Hua1 & Hub1).
  destruct (canonical_inv _ Hc2) as (a2 & b2 & c2 & d2 & Ha2 & Hf2 & Hua2 & Hub2).
  set (t1 := TigerShapefile.mk st1 (str_lower env g1) y1 us_only).
  set (t2 := TigerShapefile.mk st2 (str_lower env g2) y2 us_only).
  assert (TigerShapefile.filepath env t1 = TigerShapefile.filepath env t2 ↔
     y1 = y2 ∧
     str_lower env (str_lower env g1) = str_lower env (str_lower env g2) ∧
     ((str_lower env g1 ∈ us_only ∧ str_lower env g2 ∈ us_only) ∨
      ((str_lower env g1 ∉ us_only) ∧ (str_lower env g2 ∉ us_only) ∧ st1 = st2))) as Hall.
  { destruct (decide (str_lower env g1 ∈ us_only)) as [Hn1|Hn1];
      destruct (decide (str_lower env g2 ∈ us_only)) as [Hn2|Hn2].
    - rewrite (filepath_national env t1), (filepath_national env t2) by done.
      cbn [TigerShapefile.year TigerShapefile.geounit t1 t2]. split.
      + intros H. peel H.
        apply year_prefix_inj in H as [-> H]. peel H.
        apply app_inv_tail_str in H. auto.
      + intros (-> & -> & _). done.
    - rewrite (filepath_national env t1) by done.
      rewrite (filepath_state env t2 a2 b2) by done. split.
      + intros H. peel H. rewrite ?app_cons in H. injection H as H _. symmetry in H.
        by apply upper_not_t in H.
      + intros (_ & _ & [[_ H]|[H _]]); done.
    - rewrite (filepath_state env t1 a1 b1) by done.
      rewrite (filepath_national env t2) by done. split.
      + intros H. peel H. rewrite ?app_cons in H. injection H as H _.
        by apply upper_not_t in H.
      + intros (_ & _ & [[H _]|(_ & H & _)]); done.
    - rewrite (filepath_state env t1 a1 b1), (filepath_state env t2 a2 b2) by done.
      cbn [TigerShapefile.year TigerShapefile.geounit TigerShapefile.state t1 t2].
      rewrite Hf1, Hf2. split.
      + intros H. peel H. rewrite ?app_cons in H. injection H as -> -> H.
        peel H. apply year_prefix_inj in H as [-> H].
        rewrite ?app_cons in H. injection H as -> -> H.
        peel H. apply app_inv_tail_str in H.
        split; [done|]. split; [done|]. right. split; [done|]. split; [done|].
        destruct st1, st2. cbn in *. congruence.
      + intros (-> & -> & [[H _] | (_ & _ & ->)]); [done|].
        rewrite Ha1 in Ha2. rewrite Hf1 in Hf2. by simplify_eq. }
  split; [exact Hall|]. intros Hg1 Hg2. rewrite Hall.
  rewrite !str_lower_twice_ascii by done.
  rewrite (str_lower_ascii env g1 Hg1), (str_lower_ascii env g2 Hg2).
  split.
  - intros (-> & Hg & [[H _] | (_ & _ & ->)]); auto.
  - intros (-> & Hg & H). split; [done|]. split; [done|]. rewrite <-Hg.
    destruct (decide (Str.ascii_lower g1 ∈ us_only)) as [Hin|Hin]; [by left|].
    right. by destruct H.
Qed.

(** ** What the module adds to the filesystem *)

Lemma head_part_length p : (String.length (os_path.head_part p) ≤ String.length p)%nat.
Proof.
  induction p as [|c p IH]; [done|]. cbn [os_path.head_part String.length].
  destruct (os_path.head_part p) as [|x h].
  - case_bool_decide; cbn; lia.
  - cbn [String.length] in *. lia.
Qed.

Lemma rstrip_sep_length s : (String.length (os_path.rstrip_sep s) ≤ String.length s)%nat.
Proof.
  induction s as [|c s IH]; [done|]. cbn [os_path.rstrip_sep String.length].
  destruct (os_path.rstrip_sep s) as [|x r].
  - case_bool_decide; cbn; lia.
  - cbn [String.length] in *. lia.
Qed.

Lemma dirname_length p : (String.length (os_path.dirname p) ≤ String.length p)%nat.
Proof.
  unfold os_path.dirname. pose proof (head_part_length p).
  destruct (Str.all_sep _); [done|].
  pose proof (rstrip_sep_length (os_path.head_part p)). lia.
Qed.

Lemma mkdir_Some name f f' :
  os.mkdir name f = Some f' → files f' = files f ∧ dirs f' = {[name]} ∪ dirs f.
Proof.
  unfold os.mkdir. destruct (_ || _); [done|]. by intros [= <-].
Qed.

(** [makedirs] adds directories only, none with a longer name than the
    one asked for. *)
Lemma makedirs_rec_Some n name f f' :
  os.makedirs_rec n name f = Some f' →
  files f' = files f ∧
  ∀ d, d ∈ dirs f' → d ∈ dirs f ∨ (String.length d ≤ String.length name)%nat.
Proof.
  revert name f f'. induction n as [|n IH]; intros name f f'; cbn [os.makedirs_rec].
  - intros (Hf & Hd)%mkdir_Some. split; [done|]. intros d. rewrite Hd.
    rewrite elem_of_union, elem_of_singleton. intros [->|?]; [right; lia | by left].
  - destruct (_ && _).
    + destruct (os.makedirs_rec n _ f) as [f1|] eqn:E; [|done]. cbn.
      apply IH in E as [Hf1 Hd1]. intros (Hf & Hd)%mkdir_Some.
      split; [congruence|]. intros d. rewrite Hd.
      rewrite elem_of_union, elem_of_singleton. intros [->|Hin]; [right; lia|].
      destruct (Hd1 d Hin) as [?|Hle]; [by left|]. right.
      pose proof (dirname_length name). lia.
    + intros (Hf & Hd)%mkdir_Some. split; [done|]. intros d. rewrite Hd.
      rewrite elem_of_union, elem_of_singleton. intros [->|?]; [right; lia | by left].
Qed.

Lemma grows_by_refl q n f : grows_by q n f f.
Proof. split; intros; by left. Qed.

Lemma grows_by_trans q n f1 f2 f3 :
  grows_by q n f1 f2 → grows_by q n f2 f3 → grows_by q n f1 f3.
Proof.
  intros [Hf12 Hd12] [Hf23 Hd23]. split.
  - intros x Hx. destruct (Hf23 x Hx) as [?|?]; [auto | by right].
  - intros d Hd. destruct (Hd23 d Hd) as [?|?]; [auto | by right].
Qed.

Lemma write_file_grows q c n f f' :
  os.write_file q c f = Some f' → grows_by q n f f'.
Proof.
  intros (Hf & Hd & _)%write_file_Some. split.
  - intros x. rewrite Hf, dom_insert, elem_of_union, elem_of_singleton. tauto.
  - intros d. rewrite Hd. by left.
Qed.

Section Growth.

Variable env : Env.

Lemma download_grows t w :
  grows_by (TigerShapefile.filepath env t) (String.length (TigerShapefile.dir env t))
    (fs w) (fs (TigerShapefile.download env t w).2).
Proof.
  rewrite download_unfold. destruct (http_get env _) as [body|]; [|apply grows_by_refl].
  cbn zeta. unfold os_makedirs, write_bytes.
  destruct (os.path_exists (fs w) _); cbn.
  - destruct (os.write_file _ _ _) eqn:E; cbn; [|apply grows_by_refl].
    by apply (write_file_grows _ _ _ _ _ E).
  - destruct (os.makedirs _ _) as [f1|] eqn:E1; cbn; [|apply grows_by_refl].
    assert (grows_by (TigerShapefile.filepath env t)
              (String.length (TigerShapefile.dir env t)) (fs w) f1) as H1.
    { apply makedirs_rec_Some in E1 as [Hf Hd]. split; [|done].
      intros x. rewrite Hf. by left. }
    destruct (os.write_file _ _ f1) eqn:E; cbn; [|done].
    eapply grows_by_trans; [done|]. by apply (write_file_grows _ _ _ _ _ E).
Qed.

Lemma load_grows t w :
  grows_by (TigerShapefile.filepath env t) (String.length (TigerShapefile.dir env t))
    (fs w) (fs (TigerShapefile.load env t w).2).
Proof.
  rewrite load_depth.
  destruct (os.path_exists (fs w) (TigerShapefile.filepath env t)) eqn:Hex.
  - rewrite load_rec_present by done.
    destruct (read_file_counts env (TigerShapefile.filepath env t) w) as (_ & _ & -> & _).
    apply grows_by_refl.
  - rewrite load_rec_absent by done. pose proof (download_grows t w) as H.
    destruct (TigerShapefile.download env t w) as [[[]|e] w1]; [|done]. cbn in H.
    by destruct (read_file_counts env (TigerShapefile.filepath env t) w1) as (_ & _ & -> & _).
Qed.

End Growth.

(** ** The survey cache path *)

Lemma all_sep_app_letter (a : string) (c : ascii) (b : string) :
  c ≠ "/"%char → Str.all_sep (a +:+ String c b) = false.
Proof.
  intros Hc. induction a as [|x a IH].
  - unfold Str.all_sep. rewrite app_nil_l_str. cbn [Str.forallb].
    by rewrite bool_decide_eq_false_2.
  - rewrite app_cons. unfold Str.all_sep in *. cbn [Str.forallb].
    by rewrite IH, andb_false_r.
Qed.

Section SurveyPaths.

Variable env : Env.

(** The cache path of a canonical state. *)
Lemma survey_filepath sd a b :
  abbr (SurveyData.state sd) = String a (String b "") →
  Str.is_upper_ascii a = true → Str.is_upper_ascii b = true →
  SurveyData.filepath env sd =
  os_path.join (module_dir env) "files" +:+ "/" +:+ String a (String b "") +:+ "/"
    +:+ String a (String b "") +:+ "_" +:+ SurveyData.dataset sd +:+ "_"
    +:+ SurveyData.geounit sd +:+ ".pkl".
Proof.
  intros Habbr Ha Hb. destruct (files_dir_plain env) as [Hne Hend].
  assert (SurveyData.dir env sd
          = os_path.join (module_dir env) "files" +:+ "/" +:+ String a (String b "")) as Hdir.
  { unfold SurveyData.dir, os_path.join3. rewrite Habbr. apply join_plain; [|done..].
    cbn. by apply bool_decide_eq_false_2, upper_not_sep. }
  unfold SurveyData.filepath. rewrite join_plain.
  - rewrite Hdir. unfold SurveyData.filename. rewrite Habbr.
    by rewrite !app_assoc_str.
  - unfold SurveyData.filename. rewrite Habbr. cbn.
    by apply bool_decide_eq_false_2, upper_not_sep.
  - rewrite Hdir. by destruct (os_path.join _ _).
  - rewrite Hdir, <-app_assoc_str, endswith_sep_app by done.
    cbn. by apply bool_decide_eq_false_2, upper_not_sep.
Qed.

Lemma survey_filepath_pkl sd : ∃ pre, SurveyData.filepath env sd = pre +:+ ".pkl".
Proof.
  unfold SurveyData.filepath.
  destruct (join_suffix (SurveyData.dir env sd) (SurveyData.filename sd)) as [p1 ->].
  exists (p1 +:+ abbr (SurveyData.state sd) +:+ "_" +:+ SurveyData.dataset sd +:+ "_"
            +:+ SurveyData.geounit sd).
  unfold SurveyData.filename. by rewrite !app_assoc_str.
Qed.

(** A survey table and a shapefile never share a path. *)
Lemma survey_filepath_not_shapefile sd t :
  SurveyData.filepath env sd ≠ TigerShapefile.filepath env t.
Proof.
  destruct (survey_filepath_pkl sd) as [p1 ->].
  destruct (filepath_zip env t) as [p2 ->].
  by intros [_ [=]]%app_inv_tail_len.
Qed.

(** The cache path is longer than any directory the shapefile side
    makes. *)
Lemma survey_filepath_longer sd t :
  canonical (SurveyData.state sd) = true →
  canonical (TigerShapefile.state t) = true →
  (String.length (TigerShapefile.dir env t)
     < String.length (SurveyData.filepath env sd))%nat.
Proof.
  intros (a & b & _ & _ & Ha & _ & Hua & Hub)%canonical_inv
         (a' & b' & _ & _ & Ha' & _ & Hua' & Hub')%canonical_inv.
  rewrite (survey_filepath sd a b) by done. rewrite !length_app.
  destruct (decide (TigerShapefile.geounit t ∈ TigerShapefile.us_only t)) as [Hn|Hn].
  - unfold TigerShapefile.dir. rewrite bool_decide_eq_true_2 by done. cbn. lia.
  - rewrite (dir_state env t a' b') by done. rewrite !length_app. cbn. lia.
Qed.

Lemma survey_filepath_not_root sd :
  canonical (SurveyData.state sd) = true →
  os.isroot (SurveyData.filepath env sd) = false.
Proof.
  intros (a & b & _ & _ & Ha & _ & Hua & Hub)%canonical_inv.
  rewrite (survey_filepath sd a b) by done. unfold os.isroot.
  rewrite <-app_assoc_str, !app_cons. rewrite all_sep_app_letter; [done|].
  by apply upper_not_sep.
Qed.

End SurveyPaths.

(** ** The directory of a path *)

Lemma head_part_no_sep f : contains "/" f = false → os_path.head_part f = "".
Proof.
  induction f as [|c f IH]; [done|]. cbn [contains os_path.head_part].
  intros [Hc Hf]%orb_false_iff. rewrite (IH Hf). by rewrite Hc.
Qed.

Lemma head_part_app d f :
  contains "/" f = false → os_path.head_part (d +:+ String "/" f) = d +:+ "/".
Proof.
  intros Hf. induction d as [|c d IH].
  - rewrite !app_nil_l_str. cbn [os_path.head_part].
    rewrite (head_part_no_sep f Hf). by rewrite bool_decide_eq_true_2.
  - rewrite !app_cons. cbn [os_path.head_part]. rewrite IH.
    destruct d; by rewrite ?app_cons.
Qed.

Lemma rstrip_sep_app_sep d : os_path.rstrip_sep (d +:+ "/") = os_path.rstrip_sep d.
Proof.
  induction d as [|c d IH]; [done|]. rewrite app_cons.
  cbn [os_path.rstrip_sep]. by rewrite IH.
Qed.

Lemma rstrip_sep_id d : Str.endswith_sep d = false → os_path.rstrip_sep d = d.
Proof.
  induction d as [|c d IH]; [done|]. cbn [Str.endswith_sep os_path.rstrip_sep].
  destruct d as [|x d].
  - intros H. cbn. by rewrite H.
  - intros H. by rewrite (IH H).
Qed.

Lemma all_sep_app_sep d : Str.all_sep (d +:+ "/") = Str.all_sep d.
Proof.
  unfold Str.all_sep. induction d as [|c d IH]; [done|].
  rewrite app_cons. cbn [Str.forallb]. by rewrite IH.
Qed.

Lemma dirname_join d f :
  contains "/" f = false → Str.all_sep d = false → Str.endswith_sep d = false →
  os_path.dirname (d +:+ "/" +:+ f) = d.
Proof.
  intros Hf Hall Hend. unfold os_path.dirname.
  change (d +:+ "/" +:+ f) with (d +:+ String "/" f).
  rewrite (head_part_app d f Hf), all_sep_app_sep, Hall.
  by rewrite rstrip_sep_app_sep, rstrip_sep_id.
Qed.

(** The cache file of a canonical state goes into the state's directory. *)
Lemma survey_dirname env sd :
  canonical (SurveyData.state sd) = true →
  contains "/" (SurveyData.dataset sd) = false →
  contains "/" (SurveyData.geounit sd) = false →
  os_path.dirname (SurveyData.filepath env sd) = SurveyData.dir env sd.
Proof.
  intros (a & b & _ & _ & Ha & _ & Hua & Hub)%canonical_inv Hds Hgu.
  destruct (files_dir_plain env) as [Hne Hend].
  pose proof (upper_not_sep a Hua) as Hna. pose proof (upper_not_sep b Hub) as Hnb.
  assert (SurveyData.dir env sd
          = os_path.join (module_dir env) "files" +:+ "/" +:+ String a (String b "")) as Hdir.
  { unfold SurveyData.dir, os_path.join3. rewrite Ha. apply join_plain; [|done..].
    cbn. by apply bool_decide_eq_false_2. }
  rewrite (survey_filepath env sd a b) by done. rewrite Hdir.
  rewrite <-!(app_assoc_str (os_path.join _ _) "/" _).
  rewrite <-(app_assoc_str (os_path.join _ _ +:+ "/") (String a (String b "")) _).
  apply dirname_join.
  - rewrite !app_cons, !app_nil_l_str. cbn [contains].
    rewrite contains_app, Hds. cbn [contains orb]. rewrite contains_app, Hgu.
    rewrite !bool_decide_eq_false_2 by done. done.
  - apply all_sep_app_letter. done.
  - rewrite endswith_sep_app by done. cbn. by apply bool_decide_eq_false_2.
Qed.

(** ** Calls that do not save leave the cache path empty *)

Lemma path_exists_absent p f :
  os.isroot p = false → os.path_exists f p = false ↔ absent p f.
Proof.
  intros Hr. unfold os.path_exists, os.isdir, absent. rewrite Hr, orb_false_r.
  rewrite orb_false_iff, !bool_decide_eq_false. done.
Qed.

Lemma grows_by_absent p q n f f' :
  grows_by q n f f' → q ≠ p → (n < String.length p)%nat → absent p f → absent p f'.
Proof.
  intros [Hf Hd] Hq Hn [Hpf Hpd]. split.
  - intros [?|?]%Hf; [done | by subst].
  - intros [?|?]%Hd; [done | lia].
Qed.

Section NoSave.

Variable env : Env.
Variable sd : SurveyData.t.
Hypothesis Hsd : canonical (SurveyData.state sd) = true.

Let p := SurveyData.filepath env sd.

Lemma shapefile_table_fs ep st year w :
  fs (shapefile_table env ep st year w).2
  = fs (TigerShapefile.load env (shapefile_of ep st year) w).2.
Proof.
  unfold shapefile_table. cbv [mbind M_bind].
  destruct (TigerShapefile.load env _ w) as [[gdf|e] w1]; [|done].
  by destruct ep.
Qed.

Lemma survey_table_absent ep survey st fields redownload save w :
  (save = true → SurveyData.filepath env (cache_of ep survey st) ≠ p) →
  absent p (fs w) →
  absent p (fs (survey_table env ep survey st fields redownload save w).2).
Proof.
  intros Hsave Hw. rewrite survey_table_spec. cbn zeta.
  destruct (_ && negb redownload).
  { by destruct (read_pickle_trace env (SurveyData.filepath env (cache_of ep survey st)) w)
      as [_ ->]. }
  destruct (query_of ep survey fields (fips st)) as [records|]; [|done].
  destruct save; [|done].
  destruct (os.write_file _ _ _) as [f|] eqn:E; [|done]. cbn.
  apply (grows_by_absent p (SurveyData.filepath env (cache_of ep survey st)) 0 (fs w));
    [| by apply Hsave | | done].
  - by apply (write_file_grows _ _ _ _ _ E).
  - unfold p. destruct (survey_filepath_pkl env sd) as [pre ->].
    rewrite length_app. cbn. lia.
Qed.

Lemma exec_absent o w :
  canonical_op env o = true → saves_to env p o = false →
  absent p (fs w) → absent p (fs (exec env o w)).
Proof.
  intros Hcan Hns Hw. destruct o as [t|t|sd'|sd'|sd' df|ep survey state fields year rd sv];
    cbn [exec canonical_op saves_to] in *.
  - apply (grows_by_absent p _ _ (fs w) _ (download_grows env t w)); [| |done].
    + intros H. by apply (survey_filepath_not_shapefile env sd t).
    + by apply survey_filepath_longer.
  - apply (grows_by_absent p _ _ (fs w) _ (load_grows env t w)); [| |done].
    + intros H. by apply (survey_filepath_not_shapefile env sd t).
    + by apply survey_filepath_longer.
  - by rewrite check_exists_spec.
  - unfold SurveyData.load. by destruct (read_pickle_trace env (SurveyData.filepath env sd') w) as [_ ->].
  - rewrite save_spec. apply bool_decide_eq_false in Hns.
    destruct (os.write_file _ _ _) as [f|] eqn:E; [|done]. cbn.
    apply (grows_by_absent p (SurveyData.filepath env sd') 0 (fs w)); [| done | | done].
    + by apply (write_file_grows _ _ _ _ _ E).
    + unfold p. destruct (survey_filepath_pkl env sd) as [pre ->].
      rewrite length_app. cbn. lia.
  - rewrite run_staged. unfold staged.
    destruct (_parse_state env state []) as [st|e]; [|done].
    rewrite bind_lift_Ok.
    assert (absent p (fs (shapefile_table env ep st year w).2)) as H1.
    { rewrite shapefile_table_fs.
      apply (grows_by_absent p _ _ (fs w) _ (load_grows env _ w)); [| |done].
      - intros H. by apply (survey_filepath_not_shapefile env sd (shapefile_of ep st year)).
      - by apply survey_filepath_longer. }
    unfold mbind at 1. unfold M_bind.
    destruct (shapefile_table env ep st year w) as [[gdf|e] w1]; [|done]. cbn [snd] in H1.
    assert (absent p (fs (survey_table env ep survey st fields rd sv w1).2)) as H2.
    { apply survey_table_absent; [|done]. intros ->. cbn in Hns.
      by apply bool_decide_eq_false in Hns. }
    unfold mbind at 1. unfold M_bind.
    destruct (survey_table env ep survey st fields rd sv w1) as [[df|e] w2]; [|done].
    cbn [snd] in H2. cbv [mbind M_bind lift].
    destruct (build_geoid ep df); [|done]. by destruct (_merge_dataframe_shapefile _ _).
Qed.

Lemma exec_all_absent ops w :
  Forall (λ o, canonical_op env o = true ∧ saves_to env p o = false) ops →
  absent p (fs w) → absent p (fs (exec_all env ops w)).
Proof.
  intros Hops. revert w. induction Hops as [|o ops [Hc Hs] _ IH]; intros w Hw; [done|].
  cbn. apply IH. by apply exec_absent.
Qed.

End NoSave.

(** ** C8: [check_exists] before and after [save] *)

(** C8 as amended.  For a cache entry of a canonical state:
    - [check_exists] returns false in every world reached from one with
      nothing at the cache path by calls into the module (the methods of
      both classes, the entry points), on canonical states, none of which
      saves to that path;
    - when [save] returns normally, [check_exists] returns true right
      after, the file holds the table saved, and the directory of the file
      was there before: [save] creates no directory;
    - when that directory is missing, [save] raises [OSError], leaves the
      filesystem as it was, and [check_exists] returns what it returned
      before;
    - that directory is the state subdirectory, for dataset and unit names
      without a slash. *)
Theorem check_exists_false_before_save_true_after_successful_save
    (env : Env) (sd : SurveyData.t) :
  canonical (SurveyData.state sd) = true →
  let p := SurveyData.filepath env sd in
  (∀ w ops,
     os.path_exists (fs w) p = false →
     Forall (λ o, canonical_op env o = true ∧ saves_to env p o = false) ops →
     SurveyData.check_exists env sd (exec_all env ops w)
     = (Ok false, exec_all env ops w)) ∧
  (∀ w df w',
     SurveyData.save env sd df w = (Ok (), w') →
     SurveyData.check_exists env sd w' = (Ok true, w') ∧
     files (fs w') !! p = Some (Pickle df) ∧
     os.parent_ok (fs w) p = true ∧ dirs (fs w') = dirs (fs w)) ∧
  (∀ w df,
     os.parent_ok (fs w) p = false →
     SurveyData.save env sd df w = (Err OSError, emit (ToPickle p) w) ∧
     fs (SurveyData.save env sd df w).2 = fs w ∧
     (SurveyData.check_exists env sd (SurveyData.save env sd df w).2).1
     = (SurveyData.check_exists env sd w).1) ∧
  (contains "/" (SurveyData.dataset sd) = false →
   contains "/" (SurveyData.geounit sd) = false →
   os_path.dirname p = SurveyData.dir env sd).
Proof.
  intros Hsd p. split; [|split; [|split]].
  - intros w ops Hex Hops. rewrite check_exists_spec. fold p. f_equal. f_equal.
    pose proof (survey_filepath_not_root env sd Hsd) as Hroot. fold p in Hroot.
    apply (path_exists_absent p _ Hroot).
    apply (exec_all_absent env sd Hsd); [done|].
    by apply (path_exists_absent p _ Hroot).
  - intros w df w'. rewrite save_spec. fold p.
    destruct (os.write_file p (Pickle df) (fs w)) as [f|] eqn:E; [|done].
    intros [= <-]. rewrite check_exists_spec. fold p. cbn [fs emit set_fs].
    rewrite (write_file_exists _ _ _ _ E).
    apply write_file_Some in E as (-> & -> & ->). by rewrite lookup_insert_eq.
  - intros w df Hpar. rewrite save_spec. fold p.
    assert (os.write_file p (Pickle df) (fs w) = None) as ->.
    { apply write_file_None. by right; right. }
    by rewrite !check_exists_spec.
  - apply survey_dirname. done.
Qed.

(** ** The properties at work on the example

    Iowa's counties on a fresh installation: the national county file is
    downloaded and parsed, the survey is queried, and the one county the
    two tables share is joined. *)


Lemma get_counties_restricts_shapefile_to_state_example :
  get_counties Example.env Example.pl (PyStr "Iowa") ["P1_001N"] 2020 true false Example.fresh
    = (Ok Example.joined, Example.after_run) ∧
  TigerShapefile.load Example.env Example.county_file Example.fresh
    = (Ok Example.county_shapes, Example.with_shapefile) ∧
  shapefile_table Example.env Counties Example.iowa 2020 Example.fresh
    = (Ok Example.iowa_shapes, Example.with_shapefile) ∧
  (∀ g d, (g, d) ∈ Example.joined ↔
     g ∈ rows Example.county_shapes ∧ g !! "STATEFP" = Some "19" ∧
     d ∈ rows Example.keyed_survey ∧ key_of d = key_of g) ∧
  Example.shape_row "20001" "20" ∈ rows Example.county_shapes ∧
  (∀ d, (Example.shape_row "20001" "20", d) ∉ Example.joined).
Proof.
  split; [vm_compute; reflexivity|]. split; [vm_compute; reflexivity|].
  destruct (get_counties_restricts_shapefile_to_state
              Example.env Example.pl (PyStr "Iowa") ["P1_001N"] 2020 true false
              Example.fresh Example.joined Example.after_run)
    as (st & national & w1 & df & df' & gdf & Hst & Hload & _ & Hdf & Hdf' & Hgdf & _
        & Htable & _ & _ & _ & Hpair & Hout);
    [vm_compute; reflexivity|].
  vm_compute in Hst. injection Hst as <-.
  vm_compute in Hload. injection Hload as <- <-.
  vm_compute in Hdf. injection Hdf as <-.
  vm_compute in Hdf'. injection Hdf' as <-.
  split; [etrans; [exact Htable|]; rewrite Hgdf; vm_compute; reflexivity|].
  split; [exact Hpair|].
  assert (Example.shape_row "20001" "20" ∈ rows Example.county_shapes) as Hks.
  { cbn [rows Example.county_shapes]. apply list_elem_of_further, list_elem_of_further,
      list_elem_of_here. }
  split; [exact Hks|]. apply (Hout _ Hks). vm_compute. discriminate.
Defined.



Lemma shapefile_path_injective_up_to_case_example :
  canonical Example.iowa = true ∧ canonical Example.kansas = true ∧
  (TigerShapefile.filepath Example.env (shapefile_of Tracts Example.iowa 2020)
   = TigerShapefile.filepath Example.env (shapefile_of Tracts Example.kansas 2020)
   ↔ 2020 = 2020 ∧ Str.ascii_lower "tract" = Str.ascii_lower "tract" ∧
     (Str.ascii_lower "tract" ∈ TigerShapefile.default_us_only
      ∨ Example.iowa = Example.kansas)).
Proof.
  split; [vm_compute; reflexivity|]. split; [vm_compute; reflexivity|].
  destruct (shapefile_path_injective_up_to_case Example.env Example.iowa Example.kansas
              "tract" "tract" 2020 2020 TigerShapefile.default_us_only
              (shapefile_of Tracts Example.iowa 2020) (shapefile_of Tracts Example.kansas 2020))
    as [_ Hascii]; [vm_compute; reflexivity..|].
  apply Hascii; vm_compute; reflexivity.
Defined.

Lemma load_terminates_with_at_most_one_download_example :
  (2 ≤ recursion_limit)%nat ∧
  TigerShapefile.load Example.env Example.county_file Example.fresh
    = (Ok Example.county_shapes, Example.with_shapefile) ∧
  files (fs Example.with_shapefile) !! TigerShapefile.filepath Example.env Example.county_file
    = Some (Bytes "PK-county") ∧
  downloads (trace Example.with_shapefile) = 1%nat ∧
  parses (trace Example.with_shapefile) = 1%nat ∧
  TigerShapefile.load Example.env Example.county_file Example.with_shapefile
    = (Ok Example.county_shapes, emit (ReadShapefile Example.county_path) Example.with_shapefile).
Proof.
  assert (2 ≤ recursion_limit)%nat as Hdepth by (unfold recursion_limit; lia).
  split; [exact Hdepth|].
  destruct (load_terminates_with_at_most_one_download
              Example.env Example.county_file Example.fresh recursion_limit Hdepth)
    as (r & w' & _ & Hload & _ & Hagain & _ & _ & Hcase).
  cbn zeta in Hcase.
  destruct (os.path_exists (fs Example.fresh) _) eqn:Hex in Hcase;
    [vm_compute in Hex; discriminate|].
  destruct (http_get Example.env _) as [body|] eqn:Hget in Hcase;
    [|vm_compute in Hget; discriminate].
  vm_compute in Hget. injection Hget as <-.
  destruct (os.makedirs _ _) as [f1|] eqn:Hmk in Hcase;
    [|vm_compute in Hmk; discriminate].
  vm_compute in Hmk. injection Hmk as <-.
  destruct (os.write_file _ _ _) as [f2|] eqn:Hwr in Hcase;
    [|vm_compute in Hwr; discriminate].
  vm_compute in Hwr. injection Hwr as <-.
  destruct Hcase as (Hfs & Hfile & Hr & Htr).
  assert (w' = Example.with_shapefile) as ->.
  { destruct w' as [f tr]. cbn [fs trace] in Hfs, Htr. rewrite Hfs, Htr.
    vm_compute. reflexivity. }
  assert (r = Ok Example.county_shapes) as -> by (rewrite Hr; vm_compute; reflexivity).
  split; [exact Hload|]. split; [exact Hfile|].
  split; [vm_compute; reflexivity|]. split; [vm_compute; reflexivity|].
  apply Hagain. reflexivity.
Defined.

Lemma check_exists_false_before_save_true_after_successful_save_example :
  canonical (SurveyData.state Example.county_cache) = true ∧
  SurveyData.check_exists Example.env Example.county_cache
    (exec_all Example.env
       [OpEntry Counties Example.pl (PyStr "Iowa") ["P1_001N"] 2020 true false]
       Example.fresh)
  = (Ok false,
     exec_all Example.env
       [OpEntry Counties Example.pl (PyStr "Iowa") ["P1_001N"] 2020 true false]
       Example.fresh).
Proof.
  split; [vm_compute; reflexivity|].
  destruct (check_exists_false_before_save_true_after_successful_save
              Example.env Example.county_cache) as (Hbefore & _); [vm_compute; reflexivity|].
  apply Hbefore; [vm_compute; reflexivity|].
  apply Forall_cons. split; [split; vm_compute; reflexivity | apply Forall_nil; exact I].
Defined.

Lemma download_failed_request_leaves_filesystem_example :
  http_get Example.env (TigerShapefile.url Example.env Example.bg_file) = None ∧
  fs (TigerShapefile.download Example.env Example.bg_file Example.fresh).2 = fs Example.fresh.
Proof.
  split; [vm_compute; reflexivity|].
  destruct (download_failed_request_leaves_filesystem Example.env Example.bg_file Example.fresh)
    as (_ & Hfs & _); [vm_compute; reflexivity|].
  exact Hfs.
Defined.


(** ** Where two claims of the specification fail *)

(** C6, as the specification has it, fails on the letter case of the
    unit: Iowa's block groups asked for as [BG] and as [bg] are two
    different (state, unit, year) triples, neither unit is national, and
    both have the same local path. *)
Lemma shapefile_path_not_injective_on_unit_case :
  ∃ t1 t2,
    TigerShapefile.__init__ Example.env (PyState Example.iowa) "BG" 2020
      TigerShapefile.default_us_only = Ok t1 ∧
    TigerShapefile.__init__ Example.env (PyState Example.iowa) "bg" 2020
      TigerShapefile.default_us_only = Ok t2 ∧
    (Example.iowa, "BG", 2020) ≠ (Example.iowa, "bg", 2020) ∧
    (TigerShapefile.geounit t1 ∉ TigerShapefile.us_only t1) ∧
    (TigerShapefile.geounit t2 ∉ TigerShapefile.us_only t2) ∧
    TigerShapefile.filepath Example.env t1 = TigerShapefile.filepath Example.env t2 ∧
    TigerShapefile.filepath Example.env t1 = "/site/gerry/data/files/IA/tl_2020_19_bg.zip".
Proof.
  eexists _, _. split; [reflexivity|]. split; [reflexivity|].
  split; [discriminate|].
  split; [apply (bool_decide_unpack _); by vm_compute|].
  split; [apply (bool_decide_unpack _); by vm_compute|].
  split; vm_compute; reflexivity.
Qed.

(** C8, as the specification has it, fails when the state subdirectory is
    missing: on the fresh installation [save] raises [OSError], and
    [check_exists] right after the call returns false.  The county entry
    point asked to save ends the same way, its shapefile being national
    and so not bringing the state subdirectory about. *)
Lemma check_exists_false_after_save_without_directory :
  os.isdir (fs Example.fresh) (SurveyData.dir Example.env Example.county_cache) = false ∧
  (SurveyData.save Example.env Example.county_cache Example.survey_frame Example.fresh).1
    = Err OSError ∧
  (SurveyData.check_exists Example.env Example.county_cache
     (SurveyData.save Example.env Example.county_cache Example.survey_frame Example.fresh).2).1
    = Ok false ∧
  (get_counties Example.env Example.pl (PyStr "Iowa") ["P1_001N"] 2020 true true
     Example.fresh).1 = Err OSError.
Proof. repeat split; vm_compute; reflexivity. Qed.


(** * Further properties of the module *)

(** ** The keys of block groups and tracts *)



Lemma has_columns_spec cols df :
  has_columns cols df = true ↔ ∀ c, c ∈ cols → c ∈ columns df.
Proof.
  unfold has_columns. rewrite forallb_forall. split.
  - intros E c Hc%list_elem_of_In. specialize (E c Hc). by apply bool_decide_eq_true in E.
  - intros E c Hc%list_elem_of_In. by apply bool_decide_eq_true, E.
Qed.





(** ** The join when the survey keys are unique *)

Lemma filter_by_key_NoDup {A B} `{EqDecision B} (f : A → B) (k : B) (l : list A) :
  NoDup (f <$> l) →
  filter (λ x, f x = k) l = [] ∧ k ∉ f <$> l ∨
  ∃ x, filter (λ x, f x = k) l = [x] ∧ f x = k ∧ k ∈ f <$> l.
Proof.
  induction l as [|a l IH]; intros Hnd.
  - left. split; [done|]. apply not_elem_of_nil.
  - rewrite fmap_cons in Hnd. apply NoDup_cons in Hnd as [Hnotin Hnd].
    rewrite filter_cons. destruct (decide (f a = k)) as [Ha|Ha].
    + right. exists a. destruct (IH Hnd) as [[-> _]|(x & _ & Hx & Hin)].
      * split; [done|]. split; [done|]. rewrite fmap_cons, <-Ha. apply list_elem_of_here.
      * destruct Hnotin. by rewrite Ha.
    + destruct (IH Hnd) as [[-> Hk]|(x & -> & Hx & Hin)].
      * left. split; [done|]. rewrite fmap_cons. by apply not_elem_of_cons.
      * right. exists x. split; [done|]. split; [done|]. rewrite fmap_cons.
        by apply list_elem_of_further.
Qed.

Lemma filter_none {A} (P : A → Prop) `{∀ x, Decision (P x)} (l : list A) :
  (∀ x, x ∈ l → ¬ P x) → filter P l = [].
Proof.
  induction l as [|a l IH]; intros Hnone; [done|]. rewrite filter_cons.
  rewrite decide_False by (apply Hnone, list_elem_of_here).
  apply IH. intros x Hx. apply Hnone. by apply list_elem_of_further.
Qed.

(** X3.  When no two rows of the survey table have the same key, the
    shapefile sides of the merged result are the shapefile rows whose key
    occurs in the survey table, each once and in the order of the
    shapefile table; so the result has at most as many rows as the
    shapefile table, and none when no key is shared. *)
Theorem merged_rows_follow_shapefile_when_survey_keys_unique
    (df gdf : DataFrame) (m : list (Row * Row)) :
  _merge_dataframe_shapefile df gdf = Ok m →
  NoDup (keys (rows df)) →
  m.*1 = filter (λ g, key_of g ∈ keys (rows df)) (rows gdf) ∧
  (length m ≤ length (rows gdf))%nat ∧
  ((∀ g, g ∈ rows gdf → key_of g ∉ keys (rows df)) → m = []).
Proof.
  intros (_ & _ & ->)%merge_Ok_inv Hnd.
  assert ((rows gdf ≫= λ l, (λ r, (l, r)) <$> pandas.matches "GEOID" l (rows df)).*1
          = filter (λ g, key_of g ∈ keys (rows df)) (rows gdf)) as Hfst.
  { induction (rows gdf) as [|g gs IH]; [done|].
    cbn [mbind list_bind]. rewrite fmap_app, IH, filter_cons. unfold pandas.matches.
    destruct (filter_by_key_NoDup key_of (key_of g) (rows df) Hnd)
      as [[Hf Hk]|(d & Hf & _ & Hk)]; unfold key_of in Hf; rewrite Hf.
    - by rewrite decide_False.
    - by rewrite decide_True. }
  split; [done|]. split.
  - etrans; [|apply (length_filter (λ g, key_of g ∈ keys (rows df)))].
    rewrite <-Hfst. by rewrite length_fmap.
  - intros Hnone. apply fmap_nil_inv with (f := fst). rewrite Hfst.
    by apply filter_none.
Qed.


(** ** When an entry point raises [KeyError] or [AttributeError] *)

Lemma run_after_stages env ep survey state fields year redownload save w st gdf w1 df w2 :
  _parse_state env state [] = Ok st →
  shapefile_table env ep st year w = (Ok gdf, w1) →
  survey_table env ep survey st fields redownload save w1 = (Ok df, w2) →
  run env ep survey state fields year redownload save w
  = (df' ← build_geoid ep df; _merge_dataframe_shapefile df' gdf, w2).
Proof.
  intros Hst Hgdf Hdf. rewrite (run_after_survey _ _ _ _ _ _ _ _ _ _ _ _ Hst Hgdf).
  by rewrite Hdf.
Qed.

(** X4.  Once the shapefile table and the survey table are there, an entry
    point returns a merged table exactly when the survey table has every
    key column and the shapefile table has a [GEOID] column; in every
    other case it raises [KeyError].  It makes no call any more: the world
    is the one the survey stage left. *)
Theorem entry_point_returns_iff_key_columns_present
    (env : Env) (ep : EntryPoint) (survey : census.Client) (state : PyVal)
    (fields : Fields) (year : Z) (redownload save : bool)
    (w : World) (st : State) (gdf : DataFrame) (w1 : World) (df : DataFrame) (w2 : World) :
  _parse_state env state [] = Ok st →
  shapefile_table env ep st year w = (Ok gdf, w1) →
  survey_table env ep survey st fields redownload save w1 = (Ok df, w2) →
  ∃ r, run env ep survey state fields year redownload save w = (r, w2) ∧
    (is_Ok r = true ↔
       (∀ c, c ∈ key_columns ep → c ∈ columns df) ∧ "GEOID" ∈ columns gdf) ∧
    (is_Ok r = false → r = Err KeyError).
Proof.
  intros Hst Hgdf Hdf. rewrite (run_after_stages _ _ _ _ _ _ _ _ _ _ _ _ _ _ Hst Hgdf Hdf).
  eexists. split; [done|]. rewrite build_geoid_spec, <-has_columns_spec.
  destruct (has_columns (key_columns ep) df); cbn [mbind Result_bind].
  - unfold _merge_dataframe_shapefile, pandas.merge. cbn [columns].
    destruct (bool_decide ("GEOID" ∈ columns gdf)) eqn:E; cbn.
    + apply bool_decide_eq_true in E. rewrite bool_decide_eq_true_2.
      * split; [|done]. split; [done | by intros _].
      * apply elem_of_union_l. by apply elem_of_singleton.
    + apply bool_decide_eq_false in E. split; [|done].
      split; [done | by intros [_ ?]].
  - split; [|done]. split; [done | by intros [? _]].
Qed.


(** X6.  The county entry point needs the [STATEFP] column of the shapefile
    table: without it, it raises [AttributeError] right after the shapefile
    is loaded, before the survey cache is looked at or the survey API
    called. *)
Theorem get_counties_without_STATEFP_raises_AttributeError
    (env : Env) (survey : census.Client) (state : PyVal) (fields : Fields)
    (year : Z) (redownload save : bool) (w : World)
    (st : State) (national : DataFrame) (w1 : World) :
  _parse_state env state [] = Ok st →
  TigerShapefile.load env (shapefile_of Counties st year) w = (Ok national, w1) →
  "STATEFP" ∉ columns national →
  get_counties env survey state fields year redownload save w = (Err AttributeError, w1).
Proof.
  intros Hst Hload Hcol.
  change (get_counties env) with (run env Counties). rewrite run_staged. unfold staged.
  rewrite Hst, bind_lift_Ok. unfold shapefile_table.
  cbv [mbind M_bind lift]. rewrite Hload.
  unfold keep_state, pandas.getattr. by rewrite bool_decide_eq_false_2.
Qed.


(** ** What a cached survey table does to later calls *)

(** X7.  When the cached survey table is used (the cache file exists and
    [redownload] is false), the [fields] and [save] arguments play no part:
    two calls that differ in them only return the same result and leave
    the same world, whatever fields the cached table was queried with. *)
Theorem cached_table_is_used_whatever_the_fields
    (env : Env) (ep : EntryPoint) (survey : census.Client) (state : PyVal)
    (year : Z) (w : World) (st : State) (gdf : DataFrame) (w1 : World) :
  _parse_state env state [] = Ok st →
  shapefile_table env ep st year w = (Ok gdf, w1) →
  os.path_exists (fs w1) (SurveyData.filepath env (cache_of ep survey st)) = true →
  ∀ fields1 fields2 save1 save2,
    run env ep survey state fields1 year false save1 w
    = run env ep survey state fields2 year false save2 w.
Proof.
  intros Hst Hgdf Hex fields1 fields2 save1 save2.
  rewrite !(run_after_survey _ _ _ _ _ _ _ _ _ _ _ _ Hst Hgdf).
  rewrite !survey_table_spec. cbn zeta. by rewrite Hex.
Qed.

(** X8.  A cache file that cannot be read is not recovered from: when
    the cache path exists, [redownload] is false and reading the cache
    raises, the entry point raises the same exception, having made no call
    after the shapefile stage but that read: the survey API is not queried
    instead, and the filesystem is left as it was.  With no regular file
    at the path (a directory, say) the exception is [OSError]. *)
Theorem unreadable_cache_is_not_replaced_by_a_query
    (env : Env) (ep : EntryPoint) (survey : census.Client) (state : PyVal)
    (fields : Fields) (year : Z) (save : bool)
    (w : World) (st : State) (gdf : DataFrame) (w1 : World) (e : Exn) (w2 : World) :
  _parse_state env state [] = Ok st →
  shapefile_table env ep st year w = (Ok gdf, w1) →
  let p := SurveyData.filepath env (cache_of ep survey st) in
  os.path_exists (fs w1) p = true →
  SurveyData.load env (cache_of ep survey st) w1 = (Err e, w2) →
  run env ep survey state fields year false save w = (Err e, w2) ∧
  w2 = emit (ReadPickle p) w1 ∧
  fs w2 = fs w1 ∧
  trace w2 = ReadPickle p :: trace w1 ∧
  (files (fs w1) !! p = None → e = OSError).
Proof.
  intros Hst Hgdf p Hex Hload.
  rewrite (run_after_survey _ _ _ _ _ _ _ _ _ _ _ _ Hst Hgdf).
  rewrite survey_table_spec. cbn zeta. fold p. rewrite Hex. cbn [andb negb].
  unfold SurveyData.load in Hload. fold p in Hload. rewrite Hload.
  split; [done|]. unfold pandas_read_pickle in Hload.
  destruct (files (fs w1) !! p) as [[b|df]|] eqn:E; simplify_eq; done.
Qed.


(** ** Nothing is ever removed *)

Lemma keeps_refl f : keeps f f.
Proof. by split. Qed.

Lemma keeps_trans f1 f2 f3 : keeps f1 f2 → keeps f2 f3 → keeps f1 f3.
Proof. intros [??] [??]. split; by etrans. Qed.

Lemma write_file_keeps q c f f' : os.write_file q c f = Some f' → keeps f f'.
Proof.
  intros (Hf & Hd & _)%write_file_Some. split.
  - rewrite Hf, dom_insert. apply union_subseteq_r.
  - by rewrite Hd.
Qed.

Lemma makedirs_rec_keeps n name f f' : os.makedirs_rec n name f = Some f' → keeps f f'.
Proof.
  revert name f f'. induction n as [|n IH]; intros name f f'; cbn [os.makedirs_rec].
  - intros (Hf & Hd)%mkdir_Some. split; [by rewrite Hf|]. rewrite Hd. apply union_subseteq_r.
  - destruct (_ && _).
    + destruct (os.makedirs_rec n _ f) as [f1|] eqn:E; [|done]. cbn.
      apply IH in E. intros (Hf & Hd)%mkdir_Some. apply (keeps_trans _ f1); [done|].
      split; [by rewrite Hf|]. rewrite Hd. apply union_subseteq_r.
    + intros (Hf & Hd)%mkdir_Some. split; [by rewrite Hf|]. rewrite Hd.
      apply union_subseteq_r.
Qed.

Lemma keeps_path_exists f f' p : keeps f f' → os.path_exists f p = true → os.path_exists f' p = true.
Proof.
  intros [Hf Hd]. unfold os.path_exists, os.isdir.
  rewrite !orb_true_iff, !bool_decide_eq_true. intros [?|[?|?]]; auto.
Qed.

Section Keeps.

Variable env : Env.

Lemma download_keeps t w : keeps (fs w) (fs (TigerShapefile.download env t w).2).
Proof.
  rewrite download_unfold. destruct (http_get env _) as [body|]; [|apply keeps_refl].
  cbn zeta. unfold os_makedirs, write_bytes.
  destruct (os.path_exists (fs w) _); cbn.
  - destruct (os.write_file _ _ _) eqn:E; cbn; [|apply keeps_refl].
    by apply write_file_keeps in E.
  - destruct (os.makedirs _ _) as [f1|] eqn:E1; cbn; [|apply keeps_refl].
    apply makedirs_rec_keeps in E1.
    destruct (os.write_file _ _ f1) eqn:E; cbn; [|done].
    apply (keeps_trans _ f1); [done|]. by apply write_file_keeps in E.
Qed.

Lemma load_keeps t w : keeps (fs w) (fs (TigerShapefile.load env t w).2).
Proof.
  rewrite load_depth.
  destruct (os.path_exists (fs w) (TigerShapefile.filepath env t)) eqn:Hex.
  - rewrite load_rec_present by done.
    destruct (read_file_counts env (TigerShapefile.filepath env t) w) as (_ & _ & -> & _).
    apply keeps_refl.
  - rewrite load_rec_absent by done. pose proof (download_keeps t w) as H.
    destruct (TigerShapefile.download env t w) as [[[]|e] w1]; [|done]. cbn in H.
    by destruct (read_file_counts env (TigerShapefile.filepath env t) w1) as (_ & _ & -> & _).
Qed.

Lemma save_keeps sd df w : keeps (fs w) (fs (SurveyData.save env sd df w).2).
Proof.
  rewrite save_spec. destruct (os.write_file _ _ _) eqn:E; cbn; [|apply keeps_refl].
  by apply write_file_keeps in E.
Qed.

Lemma survey_table_keeps ep survey st fields redownload save w :
  keeps (fs w) (fs (survey_table env ep survey st fields redownload save w).2).
Proof.
  rewrite survey_table_spec. cbn zeta. destruct (_ && negb redownload).
  { destruct (read_pickle_trace env (SurveyData.filepath env (cache_of ep survey st)) w)
      as [_ ->]. apply keeps_refl. }
  destruct (query_of ep survey fields (fips st)) as [records|]; [|apply keeps_refl].
  destruct save; [|apply keeps_refl].
  destruct (os.write_file _ _ _) as [f|] eqn:E; cbn; [|apply keeps_refl].
  by apply write_file_keeps in E.
Qed.

Lemma run_keeps ep survey state fields year redownload save w :
  keeps (fs w) (fs (run env ep survey state fields year redownload save w).2).
Proof.
  rewrite run_staged. unfold staged.
  destruct (_parse_state env state []) as [st|e]; [|apply keeps_refl].
  rewrite bind_lift_Ok.
  assert (keeps (fs w) (fs (shapefile_table env ep st year w).2)) as H1.
  { rewrite shapefile_table_fs. apply load_keeps. }
  unfold mbind at 1. unfold M_bind.
  destruct (shapefile_table env ep st year w) as [[gdf|e] w1]; [|done]. cbn [snd] in H1.
  pose proof (survey_table_keeps ep survey st fields redownload save w1) as H2.
  unfold mbind at 1. unfold M_bind.
  destruct (survey_table env ep survey st fields redownload save w1) as [[df|e] w2];
    cbn [snd] in H2; [|by apply (keeps_trans _ (fs w1))].
  cbv [mbind M_bind lift].
  destruct (build_geoid ep df); [|by apply (keeps_trans _ (fs w1))].
  destruct (_merge_dataframe_shapefile _ _); by apply (keeps_trans _ (fs w1)).
Qed.

Lemma exec_keeps o w : keeps (fs w) (fs (exec env o w)).
Proof.
  destruct o as [t|t|sd|sd|sd df|ep survey state fields year rd sv]; cbn [exec].
  - apply download_keeps.
  - apply load_keeps.
  - rewrite check_exists_spec. apply keeps_refl.
  - unfold SurveyData.load.
    destruct (read_pickle_trace env (SurveyData.filepath env sd) w) as [_ ->]. apply keeps_refl.
  - apply save_keeps.
  - apply run_keeps.
Qed.

Lemma exec_all_keeps ops w : keeps (fs w) (fs (exec_all env ops w)).
Proof.
  revert w. induction ops as [|o ops IH]; intros w; [apply keeps_refl|].
  cbn. apply (keeps_trans _ (fs (exec env o w))); [apply exec_keeps | apply IH].
Qed.

End Keeps.

(** X9.  The module never removes anything: after any sequence of calls
    (methods of both classes, entry points, with any arguments and
    whatever they return) every file and every directory that existed
    before still exists; a cache entry, once there, stays there. *)
Theorem module_never_removes_a_file (env : Env) (ops : list Op) (w : World) :
  dom (files (fs w)) ⊆ dom (files (fs (exec_all env ops w))) ∧
  dirs (fs w) ⊆ dirs (fs (exec_all env ops w)) ∧
  (∀ p, os.path_exists (fs w) p = true →
        os.path_exists (fs (exec_all env ops w)) p = true) ∧
  (∀ sd, SurveyData.check_exists env sd w = (Ok true, w) →
         SurveyData.check_exists env sd (exec_all env ops w)
         = (Ok true, exec_all env ops w)).
Proof.
  pose proof (exec_all_keeps env ops w) as Hk.
  split; [apply Hk|]. split; [apply Hk|]. split.
  - intros p. by apply keeps_path_exists.
  - intros sd. rewrite !check_exists_spec. intros [= H].
    by rewrite (keeps_path_exists _ _ _ Hk H).
Qed.


(** ** What a download leaves behind *)

Lemma makedirs_files name f f' : os.makedirs name f = Some f' → files f' = files f.
Proof. unfold os.makedirs. by intros [? _]%makedirs_rec_Some. Qed.

(** X10.  A [download] that returns has stored the body of the response,
    and nothing else, at [filepath]: whatever the file held before is
    replaced, every other file is as it was, and no directory is made when
    [dir] exists already. *)
Theorem download_stores_the_response_body (env : Env) (t : TigerShapefile.t) (w w1 : World) :
  TigerShapefile.download env t w = (Ok (), w1) →
  ∃ body,
    http_get env (TigerShapefile.url env t) = Some body ∧
    files (fs w1) = <[TigerShapefile.filepath env t := Bytes body]> (files (fs w)) ∧
    (∀ q, q ≠ TigerShapefile.filepath env t → files (fs w1) !! q = files (fs w) !! q) ∧
    dirs (fs w) ⊆ dirs (fs w1) ∧
    (os.path_exists (fs w) (TigerShapefile.dir env t) = true → dirs (fs w1) = dirs (fs w)).
Proof.
  intros H. pose proof (download_keeps env t w) as [_ Hdirs]. rewrite H in Hdirs.
  rewrite download_unfold in H. destruct (http_get env _) as [body|]; [|done].
  exists body. split; [done|]. cbn zeta in H. unfold os_makedirs, write_bytes in H.
  assert (files (fs w1) = <[TigerShapefile.filepath env t := Bytes body]> (files (fs w)) ∧
          (os.path_exists (fs w) (TigerShapefile.dir env t) = true → dirs (fs w1) = dirs (fs w)))
    as [Hfiles Hsame].
  { destruct (os.path_exists (fs w) _); cbn in H.
    - destruct (os.write_file _ _ _) as [f|] eqn:E; [|done]. injection H as <-. cbn.
      by apply write_file_Some in E as (-> & -> & _).
    - destruct (os.makedirs _ _) as [f1|] eqn:E1; cbn in H; [|done].
      destruct (os.write_file _ _ f1) as [f|] eqn:E; [|done]. injection H as <-. cbn.
      apply write_file_Some in E as (-> & _ & _). apply makedirs_files in E1 as ->. done. }
  split; [done|]. split; [|done].
  intros q Hq. by rewrite Hfiles, lookup_insert_ne.
Qed.

Lemma read_file_Ok_inv env p w gdf w1 :
  geopandas_read_file env p w = (Ok gdf, w1) →
  ∃ b, files (fs w) !! p = Some (Bytes b) ∧ parse_shapefile env b = Some gdf ∧
    w1 = emit (ReadShapefile p) w.
Proof.
  unfold geopandas_read_file. destruct (files (fs w) !! p) as [[b|df]|]; [|done..].
  destruct (parse_shapefile env b) eqn:E; [|done]. intros [= <- <-]. by exists b.
Qed.

Lemma read_file_of_content env p w b :
  files (fs w) !! p = Some (Bytes b) →
  geopandas_read_file env p w
  = (match parse_shapefile env b with Some gdf => Ok gdf | None => Err DriverError end,
     emit (ReadShapefile p) w).
Proof.
  intros H. unfold geopandas_read_file. rewrite H. by destruct (parse_shapefile env b).
Qed.

(** [load] with the file in place, by what the file holds. *)
Lemma load_of_content env t w b :
  files (fs w) !! TigerShapefile.filepath env t = Some (Bytes b) →
  TigerShapefile.load env t w
  = (match parse_shapefile env b with Some gdf => Ok gdf | None => Err DriverError end,
     emit (ReadShapefile (TigerShapefile.filepath env t)) w).
Proof.
  intros H. rewrite load_depth, load_rec_present by (by apply (path_exists_file _ _ (Bytes b))).
  by apply read_file_of_content.
Qed.

(** A [load] that returns a table leaves the file it parsed at the path. *)
Lemma load_Ok_inv env t w gdf w1 :
  TigerShapefile.load env t w = (Ok gdf, w1) →
  ∃ b, files (fs w1) !! TigerShapefile.filepath env t = Some (Bytes b) ∧
    parse_shapefile env b = Some gdf.
Proof.
  rewrite load_depth.
  destruct (os.path_exists (fs w) (TigerShapefile.filepath env t)) eqn:Hex.
  - rewrite load_rec_present by done.
    intros (b & Hb & Hp & ->)%read_file_Ok_inv. by exists b.
  - rewrite load_rec_absent by done.
    destruct (TigerShapefile.download env t w) as [[[]|e] w0]; [|done].
    intros (b & Hb & Hp & ->)%read_file_Ok_inv. by exists b.
Qed.

Lemma exec_all_cons env o ops w :
  exec_all env (o :: ops) w = exec_all env ops (exec env o w).
Proof. done. Qed.

(** X11.  A file at [filepath] that is no shapefile (the body of a response
    that was an error page, say, which [download] stores like any other)
    is never replaced: [load] raises [DriverError] without a request, and
    so does every later [load], however many. *)
Theorem unparsable_shapefile_is_never_downloaded_again
    (env : Env) (t : TigerShapefile.t) (w : World) (b : string) :
  files (fs w) !! TigerShapefile.filepath env t = Some (Bytes b) →
  parse_shapefile env b = None →
  ∀ n : nat,
    let w' := exec_all env (replicate n (OpShapefileLoad t)) w in
    TigerShapefile.load env t w'
      = (Err DriverError, emit (ReadShapefile (TigerShapefile.filepath env t)) w') ∧
    fs w' = fs w ∧
    downloads (trace w') = downloads (trace w).
Proof.
  intros Hb Hp n. cbn zeta.
  assert (fs (exec_all env (replicate n (OpShapefileLoad t)) w) = fs w ∧
          downloads (trace (exec_all env (replicate n (OpShapefileLoad t)) w))
          = downloads (trace w)) as [Hfs Hd].
  { revert w Hb. induction n as [|n IH]; intros w Hb; [done|].
    cbn [replicate]. rewrite exec_all_cons. cbn [exec].
    rewrite (load_of_content env t w b Hb), Hp. cbn [snd].
    destruct (IH (emit (ReadShapefile (TigerShapefile.filepath env t)) w) Hb) as [-> ->].
    done. }
  split; [|done]. rewrite (load_of_content env t _ b) by (by rewrite Hfs). by rewrite Hp.
Qed.


(** ** The second call *)

(** X12.  The national county file serves every state: once the county
    shapefile has been loaded for one state, loading it for any other
    state (same year) makes no request and returns the same table, parsed
    from the same file. *)
Theorem county_shapefile_is_shared_between_states
    (env : Env) (st1 st2 : State) (year : Z) (w : World) (gdf : DataFrame) (w1 : World) :
  TigerShapefile.load env (shapefile_of Counties st1 year) w = (Ok gdf, w1) →
  TigerShapefile.filepath env (shapefile_of Counties st2 year)
    = TigerShapefile.filepath env (shapefile_of Counties st1 year) ∧
  TigerShapefile.load env (shapefile_of Counties st2 year) w1
    = (Ok gdf, emit (ReadShapefile (TigerShapefile.filepath env (shapefile_of Counties st1 year))) w1).
Proof.
  intros Hload.
  assert (TigerShapefile.filepath env (shapefile_of Counties st2 year)
          = TigerShapefile.filepath env (shapefile_of Counties st1 year)) as Hpath.
  { rewrite !filepath_national; [done|..]; cbn; apply list_elem_of_here. }
  split; [done|].
  apply load_Ok_inv in Hload as (b & Hb & Hp).
  rewrite <-Hpath in Hb. rewrite (load_of_content env _ w1 b Hb), Hp. by rewrite Hpath.
Qed.

(** The survey stage that returns a table with [save] set leaves that
    table in the cache, and every shapefile as it was. *)
Lemma survey_table_saved env ep survey st fields redownload w1 df w2 :
  survey_table env ep survey st fields redownload true w1 = (Ok df, w2) →
  files (fs w2) !! SurveyData.filepath env (cache_of ep survey st) = Some (Pickle df) ∧
  ∀ t, files (fs w2) !! TigerShapefile.filepath env t
       = files (fs w1) !! TigerShapefile.filepath env t.
Proof.
  rewrite survey_table_spec. cbn zeta.
  set (p := SurveyData.filepath env (cache_of ep survey st)).
  destruct (_ && negb redownload).
  - unfold pandas_read_pickle. destruct (files (fs w1) !! p) as [[b|df0]|] eqn:E; [done| |done].
    intros [= <- <-]. by cbn.
  - destruct (query_of ep survey fields (fips st)) as [records|]; [|done].
    destruct (os.write_file _ _ _) as [f|] eqn:E; [|done].
    intros [= <- <-]. cbn. apply write_file_Some in E as (-> & _). split.
    + apply lookup_insert_eq.
    + intros t. apply lookup_insert_ne. apply survey_filepath_not_shapefile.
Qed.

(** X13.  After a call of an entry point with [save] set has returned a
    merged table, a second call for the same survey, state and year with
    [redownload] false returns the same merged table from the two cached
    files: it parses the shapefile and reads the cache file, and makes no
    request and no survey query, whatever its [fields] and [save]. *)
Theorem second_call_is_served_from_the_caches
    (env : Env) (ep : EntryPoint) (survey : census.Client) (state : PyVal)
    (fields : Fields) (year : Z) (redownload : bool) (w : World)
    (m : list (Row * Row)) (w' : World) :
  run env ep survey state fields year redownload true w = (Ok m, w') →
  ∃ st,
    _parse_state env state [] = Ok st ∧
    ∀ fields' save',
      run env ep survey state fields' year false save' w'
      = (Ok m,
         emit (ReadPickle (SurveyData.filepath env (cache_of ep survey st)))
           (emit (ReadShapefile (TigerShapefile.filepath env (shapefile_of ep st year))) w')).
Proof.
  intros Hrun. apply run_Ok_inv in Hrun
    as (df' & gdf & (st & w1 & df & Hst & Hgdf & Hdf & Hdf') & Hm).
  exists st. split; [done|]. intros fields' save'.
  set (q := TigerShapefile.filepath env (shapefile_of ep st year)).
  set (p := SurveyData.filepath env (cache_of ep survey st)).
  apply survey_table_saved in Hdf as [Hp Hq]. fold p in Hp.
  (* the shapefile stage of the first call *)
  unfold shapefile_table in Hgdf.
  apply bind_inv_Ok in Hgdf as (gdf0 & w0 & Hload & Hkeep).
  pose proof (load_Ok_inv _ _ _ _ _ Hload) as (b & Hb & Hparse).
  assert (fs w0 = fs w1) as Hfs01.
  { destruct ep; cbv [lift mret M_ret] in Hkeep; by injection Hkeep as _ <-. }
  rewrite Hfs01, <-(Hq (shapefile_of ep st year)) in Hb. fold q in Hb.
  (* the shapefile stage of the second call *)
  assert (shapefile_table env ep st year w' = (Ok gdf, emit (ReadShapefile q) w')) as Hgdf2.
  { unfold shapefile_table. unfold mbind at 1. unfold M_bind.
    rewrite (load_of_content env _ w' b Hb), Hparse. fold q.
    destruct ep; cbv [lift mret M_ret] in Hkeep |- *.
    - by injection Hkeep as -> _.
    - injection Hkeep as -> _. done.
    - by injection Hkeep as -> _. }
  rewrite (run_after_survey _ _ _ _ _ _ _ _ _ _ _ _ Hst Hgdf2).
  rewrite survey_table_spec. cbn zeta. fold p. cbn [fs emit].
  rewrite (path_exists_file _ _ _ Hp). cbn [andb negb].
  unfold pandas_read_pickle. cbn [fs emit]. rewrite Hp.
  cbn [mbind Result_bind]. rewrite Hdf'. cbn [mbind Result_bind]. by rewrite Hm.
Qed.


(** ** The two caches side by side *)

Lemma download_files_other env t w q :
  q ≠ TigerShapefile.filepath env t →
  files (fs (TigerShapefile.download env t w).2) !! q = files (fs w) !! q.
Proof.
  intros Hq. rewrite download_unfold. destruct (http_get env _) as [body|]; [|done].
  cbn zeta. unfold os_makedirs, write_bytes.
  destruct (os.path_exists (fs w) _); cbn.
  - destruct (os.write_file _ _ _) as [f|] eqn:E; cbn; [|done].
    apply write_file_Some in E as (-> & _). by apply lookup_insert_ne.
  - destruct (os.makedirs _ _) as [f1|] eqn:E1; cbn; [|done].
    apply makedirs_files in E1.
    destruct (os.write_file _ _ f1) as [f|] eqn:E; cbn; [|by rewrite E1].
    apply write_file_Some in E as (-> & _). rewrite lookup_insert_ne by done. by rewrite E1.
Qed.

Lemma load_files_other env t w q :
  q ≠ TigerShapefile.filepath env t →
  files (fs (TigerShapefile.load env t w).2) !! q = files (fs w) !! q.
Proof.
  intros Hq. rewrite load_depth.
  destruct (os.path_exists (fs w) (TigerShapefile.filepath env t)) eqn:Hex.
  - rewrite load_rec_present by done.
    by destruct (read_file_counts env (TigerShapefile.filepath env t) w) as (_ & _ & -> & _).
  - rewrite load_rec_absent by done. pose proof (download_files_other env t w q Hq) as H.
    destruct (TigerShapefile.download env t w) as [[[]|e] w1]; [|done]. cbn in H.
    by destruct (read_file_counts env (TigerShapefile.filepath env t) w1) as (_ & _ & -> & _).
Qed.

(** X14.  The shapefile cache and the survey cache never share a path (the
    one ends in [.zip], the other in [.pkl]), whatever the states, units,
    years and dataset names: saving a survey table leaves every shapefile
    as it was, and downloading or loading a shapefile leaves every cached
    survey table as it was. *)
Theorem the_two_caches_never_overwrite_each_other
    (env : Env) (sd : SurveyData.t) (t : TigerShapefile.t) :
  SurveyData.filepath env sd ≠ TigerShapefile.filepath env t ∧
  (∀ df w, files (fs (SurveyData.save env sd df w).2) !! TigerShapefile.filepath env t
           = files (fs w) !! TigerShapefile.filepath env t) ∧
  (∀ w, files (fs (TigerShapefile.download env t w).2) !! SurveyData.filepath env sd
        = files (fs w) !! SurveyData.filepath env sd) ∧
  (∀ w, files (fs (TigerShapefile.load env t w).2) !! SurveyData.filepath env sd
        = files (fs w) !! SurveyData.filepath env sd).
Proof.
  pose proof (survey_filepath_not_shapefile env sd t) as Hne.
  split; [done|]. split; [|split].
  - intros df w. rewrite save_spec.
    destruct (os.write_file _ _ _) as [f|] eqn:E; cbn; [|done].
    apply write_file_Some in E as (-> & _). by apply lookup_insert_ne.
  - intros w. by apply download_files_other.
  - intros w. by apply load_files_other.
Qed.

(** ** Which survey cache entries share a path *)

Lemma app_tails_differ (a b s1 s2 k1 k2 t1 t2 : string) :
  s1 = k1 +:+ t1 → s2 = k2 +:+ t2 → String.length t1 = String.length t2 →
  a +:+ s1 = b +:+ s2 → t1 = t2.
Proof.
  intros -> -> Hlen H. rewrite <-!app_assoc_str in H.
  by apply app_inv_tail_len in H as [_ ?].
Qed.

(** X15.  For canonical states, the survey cache entries of the three
    entry points have the same path exactly when they are of the same
    state code, the same dataset name and the same entry point: tables of
    different surveys, states or levels are never stored over each other
    (the requested fields are no part of the path). *)
Theorem survey_cache_path_identifies_state_dataset_and_level
    (env : Env) (ep1 ep2 : EntryPoint) (survey1 survey2 : census.Client) (st1 st2 : State) :
  canonical st1 = true → canonical st2 = true →
  SurveyData.filepath env (cache_of ep1 survey1 st1)
    = SurveyData.filepath env (cache_of ep2 survey2 st2)
  ↔ abbr st1 = abbr st2 ∧ census.dataset survey1 = census.dataset survey2 ∧ ep1 = ep2.
Proof.
  intros Hc1 Hc2.
  destruct (canonical_inv _ Hc1) as (a1 & b1 & c1 & d1 & Ha1 & Hf1 & Hua1 & Hub1).
  destruct (canonical_inv _ Hc2) as (a2 & b2 & c2 & d2 & Ha2 & Hf2 & Hua2 & Hub2).
  rewrite (survey_filepath env (cache_of ep1 survey1 st1) a1 b1) by done.
  rewrite (survey_filepath env (cache_of ep2 survey2 st2) a2 b2) by done.
  cbn [SurveyData.dataset SurveyData.geounit cache_of]. split.
  - intros H. peel H. rewrite ?app_cons in H. injection H as -> -> _ _ H.
    rewrite Ha1, Ha2. split; [done|].
    destruct ep1, ep2; cbn [geounit_of] in H.
    + apply app_inv_tail_str in H. done.
    + by apply (app_tails_differ _ _ _ _ "_b" "_count" "g.pkl" "y.pkl") in H.
    + by apply (app_tails_differ _ _ _ _ "_b" "_trac" "g.pkl" "t.pkl") in H.
    + by apply (app_tails_differ _ _ _ _ "_count" "_b" "y.pkl" "g.pkl") in H.
    + apply app_inv_tail_str in H. done.
    + by apply (app_tails_differ _ _ _ _ "_count" "_trac" "y.pkl" "t.pkl") in H.
    + by apply (app_tails_differ _ _ _ _ "_trac" "_b" "t.pkl" "g.pkl") in H.
    + by apply (app_tails_differ _ _ _ _ "_trac" "_count" "t.pkl" "y.pkl") in H.
    + apply app_inv_tail_str in H. done.
  - intros (Habbr & -> & ->). rewrite Ha1, Ha2 in Habbr. by injection Habbr as -> ->.
Qed.


(** ** The state subdirectory, which only a per-state download makes *)

Lemma digit_not_sep c : Str.is_digit_ascii c = true → c ≠ "/"%char.
Proof. by intros H ->. Qed.

Lemma canonical_fips_no_sep st : canonical st = true → contains "/" (fips st) = false.
Proof.
  unfold canonical. rewrite !andb_true_iff, !bool_decide_eq_true.
  intros [[_ Hlf] Hd]. destruct (fips st) as [|c [|d [|]]]; try done.
  cbn in Hd. apply andb_true_iff in Hd as [Hc [Hd _]%andb_true_iff].
  cbn. rewrite !bool_decide_eq_false_2; [done|by apply digit_not_sep..].
Qed.

Lemma pretty_Z_no_sep (z : Z) : contains "/" (pretty z) = false.
Proof.
  assert (∀ d, pretty_N_char d ≠ "/"%char) as Hd.
  { intros d. unfold pretty_N_char. by repeat case_match. }
  assert (∀ n : N, contains "/" (pretty n) = false) as HN.
  { intros n. unfold pretty, pretty_N. case_decide; [done|].
    by apply pretty_N_go_contains. }
  destruct z as [|p|p]; unfold pretty, pretty_Z; [done | apply HN |].
  change ("-" +:+ pretty p) with (String "-" (pretty (N.pos p))).
  cbn [contains]. by rewrite HN.
Qed.

(** The shapefile of a canonical state, for a unit that is not national
    and has no slash in its name, goes into the state's directory. *)
Lemma shapefile_dirname env t :
  TigerShapefile.geounit t ∉ TigerShapefile.us_only t →
  canonical (TigerShapefile.state t) = true →
  contains "/" (str_lower env (TigerShapefile.geounit t)) = false →
  os_path.dirname (TigerShapefile.filepath env t) = TigerShapefile.dir env t.
Proof.
  intros Hn Hc Hg. pose proof (canonical_fips_no_sep _ Hc) as Hf.
  destruct (canonical_inv _ Hc) as (a & b & _ & _ & Ha & _ & Hua & Hub).
  destruct (files_dir_plain env) as [Hne Hend].
  pose proof (upper_not_sep a Hua) as Hna. pose proof (upper_not_sep b Hub) as Hnb.
  rewrite (filepath_state env t a b), (dir_state env t a b) by done.
  rewrite <-!(app_assoc_str (os_path.join _ _) "/" _).
  rewrite <-(app_assoc_str (os_path.join _ _ +:+ "/") (String a (String b "")) _).
  apply dirname_join.
  - rewrite !app_cons, !app_nil_l_str. cbn [contains].
    rewrite contains_app, pretty_Z_no_sep. cbn [contains orb].
    rewrite contains_app, Hf. cbn [contains orb]. rewrite contains_app, Hg.
    done.
  - apply all_sep_app_letter. done.
  - rewrite endswith_sep_app by done. cbn. by apply bool_decide_eq_false_2.
Qed.

Lemma download_Ok_parent env t w w1 :
  TigerShapefile.download env t w = (Ok (), w1) →
  os.parent_ok (fs w1) (TigerShapefile.filepath env t) = true.
Proof.
  rewrite download_unfold. destruct (http_get env _) as [body|]; [|done].
  cbn zeta. unfold os_makedirs, write_bytes.
  destruct (os.path_exists (fs w) _); cbn.
  - destruct (os.write_file _ _ _) as [f|] eqn:E; [|done]. intros [= <-]. cbn.
    apply write_file_Some in E as (_ & Hd & Hp). unfold os.parent_ok, os.isdir in *.
    by rewrite Hd.
  - destruct (os.makedirs _ _) as [f1|] eqn:E1; cbn; [|done].
    destruct (os.write_file _ _ f1) as [f|] eqn:E; [|done]. intros [= <-]. cbn.
    apply write_file_Some in E as (_ & Hd & Hp). unfold os.parent_ok, os.isdir in *.
    by rewrite Hd.
Qed.

Lemma state_dir_same env ep survey st year :
  ep ≠ Counties → canonical st = true →
  SurveyData.dir env (cache_of ep survey st) = TigerShapefile.dir env (shapefile_of ep st year).
Proof.
  intros Hep (a & b & _ & _ & Ha & _ & Hua & Hub)%canonical_inv.
  rewrite (dir_state env _ a b); [| |done..].
  - unfold SurveyData.dir, os_path.join3. cbn [SurveyData.state cache_of]. rewrite Ha.
    destruct (files_dir_plain env) as [Hne Hend]. apply join_plain; [|done..].
    cbn. by apply bool_decide_eq_false_2, upper_not_sep.
  - destruct ep; [|done|]; apply (bool_decide_unpack _); by vm_compute.
Qed.

Lemma state_dir_not_root env sd :
  canonical (SurveyData.state sd) = true →
  os.isroot (SurveyData.dir env sd) = false ∧ SurveyData.dir env sd ≠ "".
Proof.
  intros (a & b & _ & _ & Ha & _ & Hua & Hub)%canonical_inv.
  assert (SurveyData.dir env sd
          = os_path.join (module_dir env) "files" +:+ "/" +:+ String a (String b "")) as ->.
  { unfold SurveyData.dir, os_path.join3. rewrite Ha.
    destruct (files_dir_plain env) as [Hne Hend]. apply join_plain; [|done..].
    cbn. by apply bool_decide_eq_false_2, upper_not_sep. }
  split.
  - unfold os.isroot. rewrite <-app_assoc_str, all_sep_app_letter; [done|].
    by apply upper_not_sep.
  - by destruct (os_path.join _ _).
Qed.

(** X16.  After a block-group or tract shapefile of a canonical state has
    been downloaded, a survey table of that state can be saved: the
    download has made the state subdirectory, which is the one the cache
    file goes into, so [save] returns and [check_exists] then returns true
    (the dataset name having no slash, and no directory sitting at the
    cache path). *)
Theorem save_succeeds_after_a_state_shapefile_download
    (env : Env) (ep : EntryPoint) (survey : census.Client) (st : State) (year : Z)
    (w w1 : World) (df : DataFrame) :
  ep ≠ Counties → canonical st = true →
  contains "/" (census.dataset survey) = false →
  TigerShapefile.download env (shapefile_of ep st year) w = (Ok (), w1) →
  os.isdir (fs w1) (SurveyData.filepath env (cache_of ep survey st)) = false →
  os.isdir (fs w1) (SurveyData.dir env (cache_of ep survey st)) = true ∧
  ∃ w2,
    SurveyData.save env (cache_of ep survey st) df w1 = (Ok (), w2) ∧
    SurveyData.check_exists env (cache_of ep survey st) w2 = (Ok true, w2) ∧
    files (fs w2) !! SurveyData.filepath env (cache_of ep survey st) = Some (Pickle df).
Proof.
  intros Hep Hc Hds Hdl Hnotdir.
  set (sd := cache_of ep survey st). set (t := shapefile_of ep st year).
  assert (TigerShapefile.geounit t ∉ TigerShapefile.us_only t) as Hn.
  { destruct ep; [|done|]; apply (bool_decide_unpack _); by vm_compute. }
  assert (os.isdir (fs w1) (SurveyData.dir env sd) = true) as Hdir.
  { apply download_Ok_parent in Hdl. fold t in Hdl. unfold os.parent_ok in Hdl.
    rewrite (shapefile_dirname env t) in Hdl; [|done|done|by destruct ep].
    unfold sd. rewrite (state_dir_same env ep survey st year) by done. fold t.
    apply orb_true_iff in Hdl as [Hempty|?]; [|done].
    apply bool_decide_eq_true in Hempty.
    destruct (state_dir_not_root env sd Hc) as [_ Hne]. unfold sd in Hne.
    rewrite (state_dir_same env ep survey st year) in Hne by done. by destruct Hne. }
  split; [done|].
  assert (os.parent_ok (fs w1) (SurveyData.filepath env sd) = true) as Hpar.
  { unfold os.parent_ok. rewrite survey_dirname; [|done|done|by destruct ep].
    rewrite Hdir. apply orb_true_r. }
  destruct (os.write_file (SurveyData.filepath env sd) (Pickle df) (fs w1)) as [f|] eqn:E.
  - eexists. rewrite save_spec. fold sd. rewrite E. split; [done|].
    rewrite check_exists_spec. cbn [fs emit set_fs].
    rewrite (write_file_exists _ _ _ _ E). split; [done|].
    apply write_file_Some in E as (-> & _). apply lookup_insert_eq.
  - apply write_file_None in E as [E|[E|E]].
    + destruct (survey_filepath_pkl env sd) as [pre Hpre]. rewrite Hpre in E.
      by destruct pre.
    + fold sd in Hnotdir. congruence.
    + congruence.
Qed.


(** X17.  The county entry point cannot save on its own: its shapefile is
    national and goes into the [files] directory, so when the state
    subdirectory is missing before the call it is still missing when the
    fresh survey table is to be saved, and the call raises [OSError] after
    the download and the query, with nothing written to the cache. *)
Theorem get_counties_cannot_save_without_the_state_directory
    (env : Env) (survey : census.Client) (state : PyVal) (fields : Fields)
    (year : Z) (redownload : bool) (w : World)
    (st : State) (gdf : DataFrame) (w1 : World) (records : list Row) :
  _parse_state env state [] = Ok st →
  canonical st = true →
  contains "/" (census.dataset survey) = false →
  os.isdir (fs w) (SurveyData.dir env (cache_of Counties survey st)) = false →
  shapefile_table env Counties st year w = (Ok gdf, w1) →
  os.path_exists (fs w1) (SurveyData.filepath env (cache_of Counties survey st))
    && negb redownload = false →
  census.state_county survey fields (fips st) = Some records →
  let p := SurveyData.filepath env (cache_of Counties survey st) in
  let asked := emit (SurveyQuery (census.dataset survey) "county" (fips st)) w1 in
  os.isdir (fs w1) (SurveyData.dir env (cache_of Counties survey st)) = false ∧
  get_counties env survey state fields year redownload true w
    = (Err OSError, emit (ToPickle p) asked) ∧
  fs (emit (ToPickle p) asked) = fs w1.
Proof.
  intros Hst Hc Hds Hdir Hgdf Hcached Hq p asked.
  set (sd := cache_of Counties survey st) in *.
  destruct (state_dir_not_root env sd Hc) as [Hroot Hne].
  (* the state subdirectory is still missing after the shapefile stage *)
  assert (os.isdir (fs w1) (SurveyData.dir env sd) = false) as Hdir1.
  { unfold os.isdir in *. rewrite Hroot, orb_false_r in *.
    apply bool_decide_eq_false in Hdir. apply bool_decide_eq_false. intros Hin.
    pose proof (load_grows env (shapefile_of Counties st year) w) as [_ Hd].
    rewrite <-shapefile_table_fs, Hgdf in Hd. cbn [snd] in Hd.
    destruct (Hd _ Hin) as [?|Hlen]; [done|].
    destruct (canonical_inv _ Hc) as (a & b & _ & _ & Ha & _ & Hua & Hub).
    assert (SurveyData.dir env sd
            = os_path.join (module_dir env) "files" +:+ "/" +:+ String a (String b "")) as E.
    { unfold SurveyData.dir, os_path.join3. cbn [SurveyData.state sd cache_of]. rewrite Ha.
      destruct (files_dir_plain env) as [? ?]. apply join_plain; [|done..].
      cbn. by apply bool_decide_eq_false_2, upper_not_sep. }
    assert (TigerShapefile.dir env (shapefile_of Counties st year)
            = os_path.join (module_dir env) "files") as E'.
    { unfold TigerShapefile.dir. rewrite bool_decide_eq_true_2; [done|].
      apply list_elem_of_here. }
    rewrite E, E', !length_app in Hlen. cbn [String.length] in Hlen. lia. }
  split; [done|]. split; [|done].
  assert (os.write_file p (Pickle (pandas.of_records records)) (fs w1) = None) as Hw.
  { apply write_file_None. right; right. unfold os.parent_ok, p.
    rewrite survey_dirname by done. rewrite Hdir1, orb_false_r.
    by apply bool_decide_eq_false_2. }
  change (get_counties env) with (run env Counties).
  rewrite (run_after_survey _ _ _ _ _ _ _ _ _ _ _ _ Hst Hgdf).
  rewrite survey_table_spec. cbn zeta. fold sd p. fold p in Hcached. rewrite Hcached.
  cbn [query_of]. rewrite Hq, Hw. done.
Qed.

(** ** The state argument *)

(** X18.  An entry point depends on its state argument through the state
    it resolves to only: text and the state object it is resolved to give
    the same result and the same calls, and so do two texts resolved to
    the same state. *)
Theorem entry_points_depend_on_the_resolved_state_only
    (env : Env) (ep : EntryPoint) (survey : census.Client) (state1 state2 : PyVal)
    (st : State) (fields : Fields) (year : Z) (redownload save : bool) (w : World) :
  _parse_state env state1 [] = Ok st →
  _parse_state env state2 [] = Ok st →
  run env ep survey state1 fields year redownload save w
    = run env ep survey state2 fields year redownload save w ∧
  run env ep survey state1 fields year redownload save w
    = run env ep survey (PyState st) fields year redownload save w.
Proof.
  intros H1 H2. rewrite !run_staged. unfold staged. by rewrite H1, H2.
Qed.

(** ** Saving and loading a survey table *)

Lemma write_file_again p c c' f f' :
  os.write_file p c f = Some f' → ∃ f'', os.write_file p c' f' = Some f''.
Proof.
  unfold os.write_file, os.parent_ok, os.isdir.
  destruct (bool_decide (p = "")); [done|].
  destruct (bool_decide (p ∈ dirs f) || os.isroot p) eqn:E1; [done|].
  destruct (bool_decide (os_path.dirname p = "")
            || (bool_decide (os_path.dirname p ∈ dirs f) || os.isroot (os_path.dirname p)))
    eqn:E2; [|done].
  intros [= <-]. cbn [dirs]. rewrite E1, E2. by eexists.
Qed.

(** X19.  A survey table saved is the table loaded: after a [save] that
    returns, [load] returns the table saved; a second [save] replaces the
    first; and a [save] leaves the entries at every other path as they
    were. *)
Theorem survey_table_saved_is_the_table_loaded
    (env : Env) (sd : SurveyData.t) (df : DataFrame) (w w1 : World) :
  SurveyData.save env sd df w = (Ok (), w1) →
  SurveyData.load env sd w1
    = (Ok df, emit (ReadPickle (SurveyData.filepath env sd)) w1) ∧
  (∀ df' w2, SurveyData.save env sd df' w1 = (Ok (), w2) →
     SurveyData.load env sd w2
       = (Ok df', emit (ReadPickle (SurveyData.filepath env sd)) w2)) ∧
  (∀ df', ∃ w2, SurveyData.save env sd df' w1 = (Ok (), w2)) ∧
  (∀ sd', SurveyData.filepath env sd' ≠ SurveyData.filepath env sd →
     SurveyData.load env sd' w1
       = ((SurveyData.load env sd' w).1, emit (ReadPickle (SurveyData.filepath env sd')) w1)).
Proof.
  assert (∀ d u u1, SurveyData.save env sd d u = (Ok (), u1) →
            files (fs u1) !! SurveyData.filepath env sd = Some (Pickle d)) as Hsaved.
  { intros d u u1. rewrite save_spec.
    destruct (os.write_file _ _ _) as [f|] eqn:E; [|done]. intros [= <-]. cbn.
    apply write_file_Some in E as (-> & _). apply lookup_insert_eq. }
  assert (∀ d u, files (fs u) !! SurveyData.filepath env sd = Some (Pickle d) →
            SurveyData.load env sd u
            = (Ok d, emit (ReadPickle (SurveyData.filepath env sd)) u)) as Hload.
  { intros d u Hd. unfold SurveyData.load, pandas_read_pickle. by rewrite Hd. }
  intros Hsave. split; [|split; [|split]].
  - by apply Hload, (Hsaved df w).
  - intros df' w2 Hsave2. by apply Hload, (Hsaved df' w1).
  - intros df'. rewrite !save_spec in *.
    destruct (os.write_file _ (Pickle df) (fs w)) as [f|] eqn:E; [|done].
    injection Hsave as <-. cbn [fs emit set_fs].
    destruct (write_file_again _ _ (Pickle df') _ _ E) as [f' ->]. by eexists.
  - intros sd' Hne. unfold SurveyData.load, pandas_read_pickle.
    rewrite save_spec in Hsave.
    destruct (os.write_file _ _ _) as [f|] eqn:E; [|done]. injection Hsave as <-.
    cbn [fs emit set_fs]. apply write_file_Some in E as (-> & _).
    rewrite lookup_insert_ne by done.
    by destruct (files (fs w) !! SurveyData.filepath env sd') as [[]|].
Qed.


(** ** The local path and the URL *)

Lemma upper_lower_ascii c : Str.upper_ascii (Str.lower_ascii c) = Str.upper_ascii c.
Proof. by destruct c as [[] [] [] [] [] [] [] []]. Qed.

Lemma upper_lower s : Str.ascii_upper (Str.ascii_lower s) = Str.ascii_upper s.
Proof.
  induction s as [|c s IH]; [done|]. cbn. by rewrite upper_lower_ascii, IH.
Qed.

Lemma filepath_eq_filename env (t1 t2 : TigerShapefile.t) :
  canonical (TigerShapefile.state t1) = true → canonical (TigerShapefile.state t2) = true →
  TigerShapefile.filepath env t1 = TigerShapefile.filepath env t2 →
  TigerShapefile.year t1 = TigerShapefile.year t2 ∧
  str_lower env (TigerShapefile.geounit t1) = str_lower env (TigerShapefile.geounit t2) ∧
  TigerShapefile.filename env t1 = TigerShapefile.filename env t2.
Proof.
  intros Hc1 Hc2.
  destruct (canonical_inv _ Hc1) as (a1 & b1 & c1 & d1 & Ha1 & Hf1 & Hua1 & Hub1).
  destruct (canonical_inv _ Hc2) as (a2 & b2 & c2 & d2 & Ha2 & Hf2 & Hua2 & Hub2).
  unfold TigerShapefile.filename.
  destruct (decide (TigerShapefile.geounit t1 ∈ TigerShapefile.us_only t1)) as [Hn1|Hn1];
    destruct (decide (TigerShapefile.geounit t2 ∈ TigerShapefile.us_only t2)) as [Hn2|Hn2].
  - rewrite (filepath_national env t1), (filepath_national env t2) by done.
    rewrite !bool_decide_eq_true_2 by done.
    intros H. peel H. apply year_prefix_inj in H as [-> H]. peel H.
    apply app_inv_tail_str in H. by rewrite H.
  - rewrite (filepath_national env t1) by done.
    rewrite (filepath_state env t2 a2 b2) by done.
    intros H. peel H. rewrite ?app_cons in H. injection H as H _. symmetry in H.
    by apply upper_not_t in H.
  - rewrite (filepath_state env t1 a1 b1) by done.
    rewrite (filepath_national env t2) by done.
    intros H. peel H. rewrite ?app_cons in H. injection H as H _.
    by apply upper_not_t in H.
  - rewrite (filepath_state env t1 a1 b1), (filepath_state env t2 a2 b2) by done.
    rewrite !bool_decide_eq_false_2 by done. rewrite Hf1, Hf2.
    intros H. peel H. rewrite ?app_cons in H. injection H as -> -> H.
    peel H. apply year_prefix_inj in H as [-> H].
    rewrite ?app_cons in H. injection H as -> -> H.
    peel H. apply app_inv_tail_str in H. by rewrite H.
Qed.

(** X20.  For canonical states and ASCII unit names, two shapefile
    objects with the same local path request the same URL: a file found in
    the cache is the file the object would have downloaded, although the
    URL spells the unit in upper case and the path in lower case. *)
Theorem same_local_path_means_same_url (env : Env) (t1 t2 : TigerShapefile.t) :
  canonical (TigerShapefile.state t1) = true → canonical (TigerShapefile.state t2) = true →
  Str.isascii (TigerShapefile.geounit t1) = true →
  Str.isascii (TigerShapefile.geounit t2) = true →
  TigerShapefile.filepath env t1 = TigerShapefile.filepath env t2 →
  TigerShapefile.url env t1 = TigerShapefile.url env t2 ∧
  TigerShapefile.filename env t1 = TigerShapefile.filename env t2.
Proof.
  intros Hc1 Hc2 Hg1 Hg2 H.
  destruct (filepath_eq_filename env t1 t2 Hc1 Hc2 H) as (Hy & Hg & Hf).
  split; [|done]. unfold TigerShapefile.url. rewrite Hy, Hf.
  rewrite !str_lower_ascii in Hg by done. rewrite !str_upper_ascii by done.
  by rewrite <-(upper_lower (TigerShapefile.geounit t1)), Hg, upper_lower.
Qed.


(** ** The further properties at work *)



Lemma merged_rows_follow_shapefile_when_survey_keys_unique_example :
  _merge_dataframe_shapefile Example.keyed_survey Example.iowa_shapes = Ok Example.joined ∧
  NoDup (keys (rows Example.keyed_survey)) ∧
  (length Example.joined ≤ length (rows Example.iowa_shapes))%nat.
Proof.
  assert (NoDup (keys (rows Example.keyed_survey))) as Hnd.
  { apply (bool_decide_unpack _). vm_compute. reflexivity. }
  split; [vm_compute; reflexivity|]. split; [exact Hnd|].
  destruct (merged_rows_follow_shapefile_when_survey_keys_unique
              Example.keyed_survey Example.iowa_shapes Example.joined)
    as (_ & Hlen & _); [vm_compute; reflexivity | exact Hnd | exact Hlen].
Defined.

Lemma entry_point_returns_iff_key_columns_present_example :
  shapefile_table Example.env Counties Example.iowa 2020 Example.fresh
    = (Ok Example.iowa_shapes, Example.with_shapefile) ∧
  survey_table Example.env Counties Example.pl Example.iowa ["P1_001N"] true false
    Example.with_shapefile = (Ok Example.survey_frame, Example.after_run) ∧
  ∃ r, run Example.env Counties Example.pl (PyStr "Iowa") ["P1_001N"] 2020 true false
         Example.fresh = (r, Example.after_run) ∧
       (is_Ok r = false → r = Err KeyError).
Proof.
  split; [vm_compute; reflexivity|]. split; [vm_compute; reflexivity|].
  destruct (entry_point_returns_iff_key_columns_present
              Example.env Counties Example.pl (PyStr "Iowa") ["P1_001N"] 2020 true false
              Example.fresh Example.iowa Example.iowa_shapes Example.with_shapefile
              Example.survey_frame Example.after_run)
    as (r & Hrun & _ & Herr); [vm_compute; reflexivity..|].
  exists r. split; [exact Hrun | exact Herr].
Defined.


Lemma get_counties_without_STATEFP_raises_AttributeError_example :
  ("STATEFP" ∉ columns Scenario.county_shapes_2010) ∧
  (get_counties Scenario.env Example.pl (PyStr "Iowa") ["P1_001N"] 2010 true false
     Example.fresh).1 = Err AttributeError.
Proof.
  assert ("STATEFP" ∉ columns Scenario.county_shapes_2010) as Hcol.
  { apply (bool_decide_unpack _). vm_compute. reflexivity. }
  split; [exact Hcol|].
  rewrite (get_counties_without_STATEFP_raises_AttributeError
             Scenario.env Example.pl (PyStr "Iowa") ["P1_001N"] 2010 true false
             Example.fresh Example.iowa Scenario.county_shapes_2010
             (TigerShapefile.load Scenario.env (shapefile_of Counties Example.iowa 2010)
                Example.fresh).2);
    [reflexivity | vm_compute; reflexivity | vm_compute; reflexivity | exact Hcol].
Defined.

Lemma cached_table_is_used_whatever_the_fields_example :
  os.path_exists (fs Scenario.after_saving_run) Scenario.county_cache_path = true ∧
  run Example.env Counties Example.pl (PyStr "Iowa") ["P1_001N"] 2020 false false
    Scenario.after_saving_run
  = run Example.env Counties Example.pl (PyStr "Iowa") ["P1_002N"; "P1_003N"] 2020 false true
      Scenario.after_saving_run.
Proof.
  split; [vm_compute; reflexivity|].
  apply (cached_table_is_used_whatever_the_fields
           Example.env Counties Example.pl (PyStr "Iowa") 2020 Scenario.after_saving_run
           Example.iowa Example.iowa_shapes
           (emit (ReadShapefile Example.county_path) Scenario.after_saving_run));
    vm_compute; reflexivity.
Defined.

Lemma unreadable_cache_is_not_replaced_by_a_query_example :
  files (fs Scenario.with_broken_cache) !! Scenario.county_cache_path
    = Some (Bytes "not a pickle") ∧
  SurveyData.load Example.env Example.county_cache
    (emit (ReadShapefile Example.county_path) Scenario.with_broken_cache)
  = (Err UnpicklingError,
     emit (ReadPickle Scenario.county_cache_path)
       (emit (ReadShapefile Example.county_path) Scenario.with_broken_cache)) ∧
  run Example.env Counties Example.pl (PyStr "Iowa") ["P1_001N"] 2020 false false
    Scenario.with_broken_cache
  = (Err UnpicklingError,
     emit (ReadPickle Scenario.county_cache_path)
       (emit (ReadShapefile Example.county_path) Scenario.with_broken_cache)).
Proof.
  split; [vm_compute; reflexivity|]. split; [vm_compute; reflexivity|].
  destruct (unreadable_cache_is_not_replaced_by_a_query
              Example.env Counties Example.pl (PyStr "Iowa") ["P1_001N"] 2020 false
              Scenario.with_broken_cache Example.iowa Example.iowa_shapes
              (emit (ReadShapefile Example.county_path) Scenario.with_broken_cache)
              UnpicklingError
              (emit (ReadPickle Scenario.county_cache_path)
                 (emit (ReadShapefile Example.county_path) Scenario.with_broken_cache)))
    as (Hrun & _); [vm_compute; reflexivity..|].
  exact Hrun.
Defined.

Lemma download_stores_the_response_body_example :
  TigerShapefile.download Scenario.env (shapefile_of BlockGroups Example.iowa 2020)
    Example.fresh = (Ok (), Scenario.after_bg_download) ∧
  ∃ body,
    http_get Scenario.env Scenario.bg_url = Some body ∧
    files (fs Scenario.after_bg_download)
    = <["/site/gerry/data/files/IA/tl_2020_19_bg.zip" := Bytes body]> (files (fs Example.fresh)).
Proof.
  split; [vm_compute; reflexivity|].
  destruct (download_stores_the_response_body
              Scenario.env (shapefile_of BlockGroups Example.iowa 2020)
              Example.fresh Scenario.after_bg_download)
    as (body & Hget & Hfiles & _); [vm_compute; reflexivity|].
  exists body. split; [exact Hget | exact Hfiles].
Defined.

Lemma unparsable_shapefile_is_never_downloaded_again_example :
  files (fs Scenario.with_error_page) !! Scenario.tract_path
    = Some (Bytes "<html>404</html>") ∧
  parse_shapefile Scenario.env "<html>404</html>" = None ∧
  downloads (trace (exec_all Scenario.env
                      (replicate 3 (OpShapefileLoad (shapefile_of Tracts Example.iowa 2020)))
                      Scenario.with_error_page)) = 0%nat.
Proof.
  split; [vm_compute; reflexivity|]. split; [vm_compute; reflexivity|].
  destruct (unparsable_shapefile_is_never_downloaded_again
              Scenario.env (shapefile_of Tracts Example.iowa 2020)
              Scenario.with_error_page "<html>404</html>")
    with (n := 3%nat) as (_ & _ & Hd); [vm_compute; reflexivity..|].
  exact Hd.
Defined.

Lemma county_shapefile_is_shared_between_states_example :
  TigerShapefile.load Example.env (shapefile_of Counties Example.iowa 2020) Example.fresh
    = (Ok Example.county_shapes, Example.with_shapefile) ∧
  TigerShapefile.load Example.env (shapefile_of Counties Example.kansas 2020)
    Example.with_shapefile
    = (Ok Example.county_shapes,
       emit (ReadShapefile
               (TigerShapefile.filepath Example.env (shapefile_of Counties Example.iowa 2020)))
         Example.with_shapefile).
Proof.
  split; [vm_compute; reflexivity|].
  apply (county_shapefile_is_shared_between_states
           Example.env Example.iowa Example.kansas 2020 Example.fresh).
  vm_compute; reflexivity.
Defined.

Lemma second_call_is_served_from_the_caches_example :
  run Example.env Counties Example.pl (PyStr "Iowa") ["P1_001N"] 2020 true true
    Scenario.with_state_dir = (Ok Example.joined, Scenario.after_saving_run) ∧
  ∃ st, ∀ fields' save',
    run Example.env Counties Example.pl (PyStr "Iowa") fields' 2020 false save'
      Scenario.after_saving_run
    = (Ok Example.joined,
       emit (ReadPickle (SurveyData.filepath Example.env (cache_of Counties Example.pl st)))
         (emit (ReadShapefile
                  (TigerShapefile.filepath Example.env (shapefile_of Counties st 2020)))
            Scenario.after_saving_run)).
Proof.
  split; [vm_compute; reflexivity|].
  destruct (second_call_is_served_from_the_caches
              Example.env Counties Example.pl (PyStr "Iowa") ["P1_001N"] 2020 true
              Scenario.with_state_dir Example.joined Scenario.after_saving_run)
    as (st & _ & Hsecond); [vm_compute; reflexivity|].
  exists st. exact Hsecond.
Defined.

Lemma survey_cache_path_identifies_state_dataset_and_level_example :
  canonical Example.iowa = true ∧ canonical Example.kansas = true ∧
  SurveyData.filepath Example.env (cache_of Counties Example.pl Example.iowa)
    ≠ SurveyData.filepath Example.env (cache_of Tracts Example.pl Example.iowa).
Proof.
  split; [vm_compute; reflexivity|]. split; [vm_compute; reflexivity|].
  intros H.
  apply (survey_cache_path_identifies_state_dataset_and_level
           Example.env Counties Tracts Example.pl Example.pl Example.iowa Example.iowa)
    in H as (_ & _ & Hep); [discriminate Hep | vm_compute; reflexivity..].
Defined.

Lemma save_succeeds_after_a_state_shapefile_download_example :
  TigerShapefile.download Scenario.env (shapefile_of BlockGroups Example.iowa 2020)
    Example.fresh = (Ok (), Scenario.after_bg_download) ∧
  ∃ w2,
    SurveyData.save Scenario.env (cache_of BlockGroups Example.pl Example.iowa)
      Scenario.bg_frame Scenario.after_bg_download = (Ok (), w2) ∧
    SurveyData.check_exists Scenario.env (cache_of BlockGroups Example.pl Example.iowa) w2
      = (Ok true, w2).
Proof.
  split; [vm_compute; reflexivity|].
  destruct (save_succeeds_after_a_state_shapefile_download
              Scenario.env BlockGroups Example.pl Example.iowa 2020
              Example.fresh Scenario.after_bg_download Scenario.bg_frame)
    as (_ & w2 & Hsave & Hex & _);
    [discriminate | vm_compute; reflexivity..|].
  exists w2. split; [exact Hsave | exact Hex].
Defined.

Lemma get_counties_cannot_save_without_the_state_directory_example :
  os.isdir (fs Example.fresh)
    (SurveyData.dir Example.env (cache_of Counties Example.pl Example.iowa)) = false ∧
  (get_counties Example.env Example.pl (PyStr "Iowa") ["P1_001N"] 2020 true true
     Example.fresh).1 = Err OSError.
Proof.
  split; [vm_compute; reflexivity|].
  destruct (get_counties_cannot_save_without_the_state_directory
              Example.env Example.pl (PyStr "Iowa") ["P1_001N"] 2020 true Example.fresh
              Example.iowa Example.iowa_shapes Example.with_shapefile Example.survey_rows)
    as (_ & Hrun & _); [vm_compute; reflexivity..|].
  rewrite Hrun. reflexivity.
Defined.

Lemma entry_points_depend_on_the_resolved_state_only_example :
  _parse_state Example.env (PyStr "Iowa") [] = Ok Example.iowa ∧
  _parse_state Example.env (PyStr "IA") [] = Ok Example.iowa ∧
  run Example.env Tracts Example.pl (PyStr "Iowa") ["P1_001N"] 2020 true false Example.fresh
  = run Example.env Tracts Example.pl (PyStr "IA") ["P1_001N"] 2020 true false Example.fresh.
Proof.
  split; [vm_compute; reflexivity|]. split; [vm_compute; reflexivity|].
  apply (entry_points_depend_on_the_resolved_state_only
           Example.env Tracts Example.pl (PyStr "Iowa") (PyStr "IA") Example.iowa);
    vm_compute; reflexivity.
Defined.

Lemma survey_table_saved_is_the_table_loaded_example :
  (SurveyData.save Example.env Example.county_cache Example.survey_frame
     Scenario.with_state_dir).1 = Ok () ∧
  (SurveyData.load Example.env Example.county_cache
     (SurveyData.save Example.env Example.county_cache Example.survey_frame
        Scenario.with_state_dir).2).1 = Ok Example.survey_frame.
Proof.
  split; [vm_compute; reflexivity|].
  destruct (survey_table_saved_is_the_table_loaded
              Example.env Example.county_cache Example.survey_frame Scenario.with_state_dir
              (SurveyData.save Example.env Example.county_cache Example.survey_frame
                 Scenario.with_state_dir).2)
    as (Hload & _); [vm_compute; reflexivity|].
  rewrite Hload. reflexivity.
Defined.

Lemma same_local_path_means_same_url_example :
  Str.isascii (TigerShapefile.geounit (shapefile_of Counties Example.iowa 2020)) = true ∧
  TigerShapefile.filepath Example.env (shapefile_of Counties Example.iowa 2020)
    = TigerShapefile.filepath Example.env (shapefile_of Counties Example.kansas 2020) ∧
  TigerShapefile.url Example.env (shapefile_of Counties Example.iowa 2020)
    = TigerShapefile.url Example.env (shapefile_of Counties Example.kansas 2020) ∧
  TigerShapefile.url Example.env (shapefile_of Counties Example.iowa 2020)
    = Example.county_url.
Proof.
  split; [vm_compute; reflexivity|]. split; [vm_compute; reflexivity|].
  split; [|vm_compute; reflexivity].
  apply (same_local_path_means_same_url Example.env); vm_compute; reflexivity.
Defined.
